(** * filebasepy: the Filebase client, embedded and verified

    A shallow embedding of [filebasepy/__init__.py]: the class [Filebase]
    with its six methods and the static helper [handle_error], over

    - Python text as lists of code points and bytes as lists of octets,
    - a universe [PyVal] of the Python values that reach the client,
    - a state-and-exception monad [M] whose state is the object [self]
      together with the log of the calls made to the file system, to the
      object store, to the REST service and, by a script, to the standard
      output, which a [World] answers,
    - the library functions the client calls: [bytes(s, 'utf-8')],
      [bytes.decode], [base64.b64encode], [json.dumps(data, indent=4)]
      and, for reading a payload back, [json.loads].

    Python itself enters through an [Interpreter]: the limit on the
    digits of an integer, the room the stack has left, and the two
    conversions between a float and its decimal text.  The Unicode tables
    behind [str.lower] are a parameter of the client.  Values are trees: a
    container that contains itself is not in [PyVal].

    The first half of the file holds the definitions, the second half the
    facts proved about them. *)

From Stdlib Require Import Ascii String.
From Stdlib Require Import List NArith ZArith Bool Lia.
From Stdlib Require Import SpecFloat.
From Stdlib Require DecimalPos DecimalN.
Import ListNotations.

Set Implicit Arguments.
Local Set Warnings "-register-all".

Local Open Scope N_scope.

(* ===================================================================== *)
(** * Text and bytes *)
(* ===================================================================== *)

(** A Python [str] is a sequence of code points; lone surrogates
    (0xD800..0xDFFF) are legal members of a [str].  A [bytes] object is a
    sequence of octets. *)
Definition pystr := list N.
Definition pybytes := list N.

(** Code points of a literal written in the source (ASCII literals only). *)
Definition lit (s : string) : pystr :=
  map N_of_ascii (list_ascii_of_string s).

Definition str_eqb (a b : pystr) : bool :=
  if list_eq_dec N.eq_dec a b then true else false.

Definition is_surrogate (c : N) : bool := (0xD800 <=? c) && (c <=? 0xDFFF).


Definition is_ascii (s : pystr) : bool := forallb (fun c => c <? 128) s.

(** ** [bytes(s, 'utf-8')] *)

(** The UTF-8 octets of one code point; surrogates have none (the strict
    error handler refuses them). *)
Definition utf8_encode_char (c : N) : option pybytes :=
  if c <? 0x80 then Some [c]
  else if c <? 0x800 then
    Some [N.lor 0xC0 (N.shiftr c 6); N.lor 0x80 (N.land c 0x3F)]
  else if is_surrogate c then None
  else if c <? 0x10000 then
    Some [N.lor 0xE0 (N.shiftr c 12);
          N.lor 0x80 (N.land (N.shiftr c 6) 0x3F);
          N.lor 0x80 (N.land c 0x3F)]
  else if c <=? 0x10FFFF then
    Some [N.lor 0xF0 (N.shiftr c 18);
          N.lor 0x80 (N.land (N.shiftr c 12) 0x3F);
          N.lor 0x80 (N.land (N.shiftr c 6) 0x3F);
          N.lor 0x80 (N.land c 0x3F)]
  else None.

(** [None] stands for the [UnicodeEncodeError] Python raises. *)
Fixpoint utf8_encode (s : pystr) : option pybytes :=
  match s with
  | [] => Some []
  | c :: s' =>
      match utf8_encode_char c, utf8_encode s' with
      | Some b, Some bs => Some (b ++ bs)
      | _, _ => None
      end
  end.

(** ** [b.decode('utf-8')] and [b.decode('utf-8', 'surrogatepass')] *)

Definition is_cont (b : N) : bool := (0x80 <=? b) && (b <=? 0xBF).
Definition cont_bits (b : N) : N := N.land b 0x3F.

(** Decoding with fuel: each step consumes at least one octet.  Overlong
    forms and values above 0x10FFFF are refused; an encoded surrogate is
    refused by the strict handler and let through when [pass] is set.
    [None] stands for the [UnicodeDecodeError] Python raises. *)
Fixpoint utf8_decode_aux (pass : bool) (fuel : nat) (b : pybytes) : option pystr :=
  match fuel with
  | O => match b with [] => Some [] | _ => None end
  | S fuel' =>
      match b with
      | [] => Some []
      | b0 :: r =>
          if b0 <? 0x80 then option_map (cons b0) (utf8_decode_aux pass fuel' r)
          else if (0xC2 <=? b0) && (b0 <=? 0xDF) then
            match r with
            | b1 :: r' =>
                if is_cont b1 then
                  option_map
                    (cons (N.lor (N.shiftl (N.land b0 0x1F) 6) (cont_bits b1)))
                    (utf8_decode_aux pass fuel' r')
                else None
            | _ => None
            end
          else if (0xE0 <=? b0) && (b0 <=? 0xEF) then
            match r with
            | b1 :: b2 :: r' =>
                let c := N.lor (N.shiftl (N.land b0 0x0F) 12)
                           (N.lor (N.shiftl (cont_bits b1) 6) (cont_bits b2)) in
                if is_cont b1 && is_cont b2 && (0x800 <=? c)
                   && (pass || negb (is_surrogate c)) then
                  option_map (cons c) (utf8_decode_aux pass fuel' r')
                else None
            | _ => None
            end
          else if (0xF0 <=? b0) && (b0 <=? 0xF4) then
            match r with
            | b1 :: b2 :: b3 :: r' =>
                let c := N.lor (N.shiftl (N.land b0 0x07) 18)
                           (N.lor (N.shiftl (cont_bits b1) 12)
                              (N.lor (N.shiftl (cont_bits b2) 6) (cont_bits b3))) in
                if is_cont b1 && is_cont b2 && is_cont b3
                   && (0x10000 <=? c) && (c <=? 0x10FFFF) then
                  option_map (cons c) (utf8_decode_aux pass fuel' r')
                else None
            | _ => None
            end
          else None
      end
  end.

Definition utf8_decode (b : pybytes) : option pystr :=
  utf8_decode_aux false (length b) b.

Definition utf8_decode_surrogatepass (b : pybytes) : option pystr :=
  utf8_decode_aux true (length b) b.

(** ** [base64.b64encode] *)

(** The standard alphabet: A-Z, a-z, 0-9, '+', '/'. *)
Definition b64_char (i : N) : N :=
  if i <? 26 then 65 + i
  else if i <? 52 then 97 + (i - 26)
  else if i <? 62 then 48 + (i - 52)
  else if i =? 62 then 43
  else 47.

Definition b64_pad : N := 61.

(** Three octets give four characters; a final group of one or two octets
    is padded with '='. *)
Fixpoint b64encode (b : pybytes) : pybytes :=
  match b with
  | [] => []
  | [x] =>
      [b64_char (N.shiftr x 2);
       b64_char (N.shiftl (N.land x 3) 4);
       b64_pad; b64_pad]
  | [x; y] =>
      [b64_char (N.shiftr x 2);
       b64_char (N.lor (N.shiftl (N.land x 3) 4) (N.shiftr y 4));
       b64_char (N.shiftl (N.land y 15) 2);
       b64_pad]
  | x :: y :: z :: r =>
      b64_char (N.shiftr x 2)
      :: b64_char (N.lor (N.shiftl (N.land x 3) 4) (N.shiftr y 4))
      :: b64_char (N.lor (N.shiftl (N.land y 15) 2) (N.shiftr z 6))
      :: b64_char (N.land z 63)
      :: b64encode r
  end.

(* ===================================================================== *)
(** * Exceptions and results *)
(* ===================================================================== *)

(** The exception classes that occur.  The last three derive from
    [BaseException] only; all others derive from [Exception]. *)
Inductive ExcClass : Type :=
  | KeyError | TypeError | AttributeError | ValueError | RecursionError
  | UnicodeEncodeError | UnicodeDecodeError
  | FileNotFoundError | PermissionError | OSError
  | JSONDecodeError
  | ClientError | EndpointConnectionError | ConnectionError | Timeout
  | KeyboardInterrupt | SystemExit | GeneratorExit.

(** An exception instance: its class and its argument (the missing key of
    a [KeyError], the message otherwise). *)
Record Exc : Type := mkExc { exc_class : ExcClass; exc_arg : pystr }.

(** [isinstance(e, Exception)] *)
Definition is_Exception (e : Exc) : bool :=
  match exc_class e with
  | KeyboardInterrupt | SystemExit | GeneratorExit => false
  | _ => true
  end.

(** The outcome of evaluating an expression: a value or a raised
    exception. *)
Inductive result (A : Type) : Type :=
  | Return (a : A)
  | Raise (e : Exc).
Arguments Return {A} a.
Arguments Raise {A} e.

Definition rbind {A B} (r : result A) (k : A -> result B) : result B :=
  match r with
  | Return a => k a
  | Raise e => Raise e
  end.

Declare Scope result_scope.
Delimit Scope result_scope with result.
Notation "x <- r ;; k" := (rbind r (fun x => k))
  (at level 61, r at next level, right associativity) : result_scope.

(* ===================================================================== *)
(** * Python values *)
(* ===================================================================== *)

(** The values that reach the client.  A float is a binary64 number.  A
    dict keeps its items in insertion order.  [VResponse] is a [requests.Response]: its [status_code],
    [reason], [text], and what its method [json()] gives when called. *)
Inductive PyVal : Type :=
  | VNone
  | VBool (b : bool)
  | VInt (z : Z)
  | VFloat (x : spec_float)
  | VStr (s : pystr)
  | VBytes (b : pybytes)
  | VList (l : list PyVal)
  | VTuple (l : list PyVal)
  | VDict (d : list (PyVal * PyVal))
  | VFile (path : pystr)
  | VResponse (status_code : Z) (reason text : pystr) (json : result PyVal)
  | VExc (e : Exc).

Definition items := list (PyVal * PyVal).

(** [d[k]] for a string key [k]: the value of the item whose key is the
    string [k]. *)
Fixpoint dict_get (d : items) (k : pystr) : option PyVal :=
  match d with
  | [] => None
  | (VStr k', v) :: d' => if str_eqb k' k then Some v else dict_get d' k
  | _ :: d' => dict_get d' k
  end.

(** [d[k] = v] for a string key: replaces the value in place, or appends. *)
Fixpoint dict_set (d : items) (k : pystr) (v : PyVal) : items :=
  match d with
  | [] => [(VStr k, v)]
  | (VStr k', v') :: d' =>
      if str_eqb k' k then (VStr k', v) :: d'
      else (VStr k', v') :: dict_set d' k v
  | kv :: d' => kv :: dict_set d' k v
  end.


(** [v[k]] with a string literal [k]: only a dict can be subscripted by a
    string. *)
Definition getitem (v : PyVal) (k : string) : result PyVal :=
  match v with
  | VDict d =>
      match dict_get d (lit k) with
      | Some x => Return x
      | None => Raise (mkExc KeyError (lit k))
      end
  | _ => Raise (mkExc TypeError (lit "not subscriptable by str"))
  end.

(** Python's [==] on floats, for which NaN differs from itself. *)
Definition float_eq (a b : spec_float) : bool := SFeqb a b.

(** [float(n)] for an integer [n] of at most 53 bits. *)
Definition float_of_int (n : Z) : spec_float := binary_normalize 53 1024 n 0 false.

(** [v == n] for an integer literal [n] of at most 53 bits; [True] and
    [False] compare as 1 and 0, a float as the number it is. *)
Definition eq_int (v : PyVal) (n : Z) : bool :=
  match v with
  | VInt z => Z.eqb z n
  | VBool b => Z.eqb (if b then 1 else 0) n
  | VFloat x => float_eq x (float_of_int n)
  | _ => false
  end.

(** The float 200.0. *)
Definition float_200 : spec_float := S754_finite false 7036874417766400 (-45).

(** [isinstance(v, dict)] *)
Definition isinstance_dict (v : PyVal) : bool :=
  match v with VDict _ => true | _ => false end.

(** Attributes of a [requests.Response]; any other value of the universe
    has none of them. *)
Definition no_attribute (name : string) : Exc := mkExc AttributeError (lit name).

Definition attr_status_code (v : PyVal) : result PyVal :=
  match v with
  | VResponse c _ _ _ => Return (VInt c)
  | _ => Raise (no_attribute "status_code")
  end.

Definition attr_reason (v : PyVal) : result PyVal :=
  match v with
  | VResponse _ r _ _ => Return (VStr r)
  | _ => Raise (no_attribute "reason")
  end.

Definition attr_text (v : PyVal) : result PyVal :=
  match v with
  | VResponse _ _ t _ => Return (VStr t)
  | _ => Raise (no_attribute "text")
  end.

(** [Response.ok]: false exactly when [raise_for_status()] would raise,
    that is for a status code from 400 up to 599. *)
Definition status_ok (c : Z) : bool := negb ((400 <=? c)%Z && (c <? 600)%Z).

Definition attr_ok (v : PyVal) : result bool :=
  match v with
  | VResponse c _ _ _ => Return (status_ok c)
  | _ => Raise (no_attribute "ok")
  end.

(** [response.json()] *)
Definition call_json (v : PyVal) : result PyVal :=
  match v with
  | VResponse _ _ _ j => j
  | _ => Raise (no_attribute "json")
  end.

(* ===================================================================== *)
(** * Floats and the interpreter *)
(* ===================================================================== *)

(** A Python [float] is a binary64 number, a [spec_float] taken with
    precision 53 and maximal exponent 1024. *)

(** ** The decimal text of a float *)

(** A run of decimal digits that is not empty: zeros, then the digits of
    a number. *)
Record Digits : Type := mkDigits { leading_zeros : nat; digits_value : N }.

(** The exponent of a float literal: the letter [e] or [E], a sign if one
    is written ([Some true] for minus), and the digits. *)
Record Exponent : Type := mkExponent {
  exp_upper : bool;
  exp_sign : option bool;
  exp_digits : Digits
}.

(** What follows the integer part: a fraction, then possibly an exponent;
    or an exponent alone. *)
Inductive Tail : Type :=
  | Fraction (frac : Digits) (exp : option Exponent)
  | Exponent_only (exp : Exponent).

(** A JSON number that denotes a float: the integer part with its sign,
    and a fraction or an exponent.  These are the texts [float.__repr__]
    gives for a finite float, and the texts [json.loads] hands to
    [float]. *)
Record FloatLiteral : Type := mkFloatLiteral {
  lit_negative : bool;
  lit_integer : N;
  lit_tail : Tail
}.

(** ** What the client takes from the interpreter *)

(** - [int_max_str_digits]: the limit on the number of digits in a
      conversion between [int] and [str], 0 for none (4300 unless it is
      set; a limit that is set is at least 640);
    - [has_stack level o]: whether the stack has room, where the client
      is called, for [json.dumps] to visit the value [o] met [level]
      containers deep; [key_has_stack level k] the same for the
      conversion of a dict key [k] met [level] containers deep, a key
      being as deep as the values of its dict.  Without room Python
      raises [RecursionError] there;
    - [float_repr] and [float_of_literal]: [float.__repr__] on a finite
      float, and [float] on the text of a float literal. *)
Record Interpreter : Type := mkInterpreter {
  int_max_str_digits : N;
  has_stack : nat -> PyVal -> bool;
  key_has_stack : nat -> PyVal -> bool;
  float_repr : spec_float -> FloatLiteral;
  float_of_literal : FloatLiteral -> spec_float
}.

(** Whether a number of [digits] digits is over the limit. *)
Definition over_digit_limit (py : Interpreter) (digits : N) : bool :=
  (0 <? int_max_str_digits py) && (int_max_str_digits py <? digits).

Definition recursion_error : Exc :=
  mkExc RecursionError (lit "maximum recursion depth exceeded").

Definition digit_limit_error : Exc :=
  mkExc ValueError (lit "Exceeds the limit for integer string conversion").

(* ===================================================================== *)
(** * [json.dumps(data, indent=4)] *)
(* ===================================================================== *)

(** The library's encoder with its defaults ([ensure_ascii=True],
    [skipkeys=False], [allow_nan=True], [sort_keys=False]) and
    [indent=4], hence the separators [','] and [': ']. *)

Definition hexdigit (d : N) : N := if d <? 10 then 48 + d else 87 + d.

(** ['{0:04x}'.format(n)] for [n < 0x10000] *)
Definition hex4 (n : N) : pystr :=
  [hexdigit (N.land (N.shiftr n 12) 15);
   hexdigit (N.land (N.shiftr n 8) 15);
   hexdigit (N.land (N.shiftr n 4) 15);
   hexdigit (N.land n 15)].

Definition backslash : N := 92.
Definition quote : N := 34.

Definition u_escape (n : N) : pystr := backslash :: 117 :: hex4 n.

(** The replacement of one character inside a string literal: the short
    escapes, printable ASCII as it is, everything else as [\uXXXX], above
    the basic plane as a surrogate pair. *)
Definition escape_char (c : N) : pystr :=
  if c =? quote then [backslash; quote]
  else if c =? backslash then [backslash; backslash]
  else if c =? 10 then [backslash; 110]
  else if c =? 13 then [backslash; 114]
  else if c =? 9 then [backslash; 116]
  else if c =? 8 then [backslash; 98]
  else if c =? 12 then [backslash; 102]
  else if (32 <=? c) && (c <=? 126) then [c]
  else if c <? 0x10000 then u_escape c
  else
    let n := c - 0x10000 in
    let s1 := N.lor 0xD800 (N.land (N.shiftr n 10) 0x3FF) in
    let s2 := N.lor 0xDC00 (N.land n 0x3FF) in
    u_escape s1 ++ u_escape s2.

Definition escape_body (s : pystr) : pystr := flat_map escape_char s.

(** [encode_basestring_ascii] *)
Definition encode_basestring_ascii (s : pystr) : pystr :=
  quote :: escape_body s ++ [quote].

Fixpoint uint_chars (u : Decimal.uint) : pystr :=
  match u with
  | Decimal.Nil => []
  | Decimal.D0 u' => 48 :: uint_chars u'
  | Decimal.D1 u' => 49 :: uint_chars u'
  | Decimal.D2 u' => 50 :: uint_chars u'
  | Decimal.D3 u' => 51 :: uint_chars u'
  | Decimal.D4 u' => 52 :: uint_chars u'
  | Decimal.D5 u' => 53 :: uint_chars u'
  | Decimal.D6 u' => 54 :: uint_chars u'
  | Decimal.D7 u' => 55 :: uint_chars u'
  | Decimal.D8 u' => 56 :: uint_chars u'
  | Decimal.D9 u' => 57 :: uint_chars u'
  end.

(** [int.__repr__] without the limit on the digits. *)
Definition int_repr (z : Z) : pystr :=
  match z with
  | Z0 => [48]
  | Zpos p => uint_chars (Pos.to_uint p)
  | Zneg p => 45 :: uint_chars (Pos.to_uint p)
  end.

(** The number of decimal digits of an integer. *)
Definition int_digits (z : Z) : N := N.of_nat (length (int_repr (Z.abs z))).

(** [int.__repr__]: a [ValueError] when the digits are over the limit. *)
Definition int_str (py : Interpreter) (z : Z) : result pystr :=
  if over_digit_limit py (int_digits z) then Raise digit_limit_error
  else Return (int_repr z).

(** The text of a float literal. *)
Definition digits_text (d : Digits) : pystr :=
  repeat 48 (leading_zeros d) ++ uint_chars (N.to_uint (digits_value d)).

Definition sign_text (sign : option bool) : pystr :=
  match sign with
  | Some true => [45]
  | Some false => [43]
  | None => []
  end.

Definition exponent_text (e : Exponent) : pystr :=
  (if exp_upper e then 69 else 101)
  :: sign_text (exp_sign e) ++ digits_text (exp_digits e).

Definition tail_text (t : Tail) : pystr :=
  match t with
  | Fraction frac exp =>
      46 :: digits_text frac
      ++ match exp with Some e => exponent_text e | None => [] end
  | Exponent_only e => exponent_text e
  end.

Definition literal_text (l : FloatLiteral) : pystr :=
  (if lit_negative l then [45] else [])
  ++ uint_chars (N.to_uint (lit_integer l)) ++ tail_text (lit_tail l).

(** [floatstr]: NaN and the infinities by name, any other float through
    [float.__repr__]. *)
Definition floatstr (py : Interpreter) (x : spec_float) : pystr :=
  match x with
  | S754_nan => lit "NaN"
  | S754_infinity false => lit "Infinity"
  | S754_infinity true => lit "-Infinity"
  | _ => literal_text (float_repr py x)
  end.

(** ['\n' + indent * level] *)
Definition newline_indent (level : nat) : pystr :=
  10 :: repeat 32 (4 * level)%nat.

(** [''.join] of the chunks, with [sep] before every chunk but the first. *)
Fixpoint join (sep : pystr) (chunks : list pystr) : pystr :=
  match chunks with
  | [] => []
  | [c] => c
  | c :: cs => c ++ sep ++ join sep cs
  end.

Section MapM.
Variables (A B : Type) (f : A -> result B).

Fixpoint mapM (l : list A) : result (list B) :=
  match l with
  | [] => Return []
  | x :: l' =>
      match f x with
      | Raise e => Raise e
      | Return y =>
          match mapM l' with
          | Raise e => Raise e
          | Return ys => Return (y :: ys)
          end
      end
  end.
End MapM.

Definition bad_key : Exc :=
  mkExc TypeError (lit "keys must be str, int, float, bool or None").

(** The text of a dict key met [level] containers deep: strings as they
    are; floats, [True], [False], [None] and integers through their JSON
    spelling; any other key is refused. *)
Definition key_text (py : Interpreter) (level : nat) (k : PyVal) : result pystr :=
  if key_has_stack py level k then
    match k with
    | VStr s => Return s
    | VFloat x => Return (floatstr py x)
    | VBool true => Return (lit "true")
    | VBool false => Return (lit "false")
    | VNone => Return (lit "null")
    | VInt z => int_str py z
    | _ => Raise bad_key
    end
  else Raise recursion_error.

Definition not_serializable : Exc :=
  mkExc TypeError (lit "Object is not JSON serializable").

(** [_iterencode(o, level)], its chunks joined.  Lists and tuples print
    alike; an empty container prints without a line break. *)
Fixpoint iterencode (py : Interpreter) (level : nat) (o : PyVal) {struct o}
  : result pystr :=
  if has_stack py level o then
    match o with
    | VStr s => Return (encode_basestring_ascii s)
    | VNone => Return (lit "null")
    | VBool true => Return (lit "true")
    | VBool false => Return (lit "false")
    | VInt z => int_str py z
    | VFloat x => Return (floatstr py x)
    | VList l | VTuple l =>
        match l with
        | [] => Return (lit "[]")
        | _ =>
            match mapM (iterencode py (S level)) l with
            | Raise e => Raise e
            | Return chunks =>
                Return (lit "[" ++ newline_indent (S level)
                        ++ join (lit "," ++ newline_indent (S level)) chunks
                        ++ newline_indent level ++ lit "]")
            end
        end
    | VDict d =>
        match d with
        | [] => Return (lit "{}")
        | _ =>
            match mapM (fun kv : PyVal * PyVal =>
                          match key_text py (S level) (fst kv) with
                          | Raise e => Raise e
                          | Return k =>
                              match iterencode py (S level) (snd kv) with
                              | Raise e => Raise e
                              | Return v =>
                                  Return (encode_basestring_ascii k ++ lit ": " ++ v)
                              end
                          end) d with
            | Raise e => Raise e
            | Return chunks =>
                Return (lit "{" ++ newline_indent (S level)
                        ++ join (lit "," ++ newline_indent (S level)) chunks
                        ++ newline_indent level ++ lit "}")
            end
        end
    | VBytes _ | VFile _ | VResponse _ _ _ _ | VExc _ => Raise not_serializable
    end
  else Raise recursion_error.

Definition json_dumps (py : Interpreter) (data : PyVal) : result pystr :=
  iterencode py 0 data.

(* ===================================================================== *)
(** * [json.loads] *)
(* ===================================================================== *)

(** The library's decoder with its defaults, run with stack to spare.
    [None] stands for the error raised on text that is not JSON
    ([JSONDecodeError]) or that holds an integer with more digits than
    the interpreter converts ([ValueError]). *)
























(* ===================================================================== *)
(** * The outside world *)
(* ===================================================================== *)

(** The handle [boto3.client('s3', ...)] gives: the endpoint and the
    credentials it is bound to. *)
Record S3Client : Type := mkS3Client {
  endpoint_url : pystr;
  aws_access_key_id : pystr;
  aws_secret_access_key : pystr
}.

(** The calls the client makes to the file system, to the object store
    through its handle, and to the REST service; and the call a script
    makes to print a value behind a label, [print(f"<label>: {value}")],
    which formats the value and writes the line to the standard output. *)
Inductive Call : Type :=
  | Open_rb (path : pystr)
  | S3_create_bucket (client : S3Client) (Bucket : pystr)
  | S3_list_buckets (client : S3Client)
  | S3_put_object (client : S3Client) (Body : PyVal) (Bucket Key : pystr)
  | S3_delete_object (client : S3Client) (Bucket Key : pystr)
  | Requests_get (url : pystr) (headers : PyVal)
  | Print (label : pystr) (value : PyVal).

(** How the outside answers a call, given the calls made before it: with
    a value or with a raised exception. *)
Definition World := list Call -> Call -> result PyVal.

(* ===================================================================== *)
(** * The client *)
(* ===================================================================== *)

Definition API_ENDPOINT : pystr := lit "https://api.filebase.io/v1/".
Definition AWS_ENDPOINT : pystr := lit "https://s3.filebase.com".

(** The attributes of a [Filebase] object. *)
Record Filebase : Type := mkFilebase {
  filebase_api_key : pystr;
  filebase_secret_api_key : pystr;
  s3 : S3Client
}.

(** [Filebase.__init__] *)
Definition Filebase__init__ (filebase_api_key filebase_secret_api_key : pystr)
  : Filebase :=
  {| filebase_api_key := filebase_api_key;
     filebase_secret_api_key := filebase_secret_api_key;
     s3 := {| endpoint_url := AWS_ENDPOINT;
              aws_access_key_id := filebase_api_key;
              aws_secret_access_key := filebase_secret_api_key |} |}.

(** What a method runs on: the object [self] and the log of the calls
    made so far. *)
Record State : Type := mkState {
  self : Filebase;
  log : list Call
}.

(** Method bodies: state passing with exceptions. *)
Definition M (A : Type) : Type := State -> result A * State.

Definition ret {A} (a : A) : M A := fun st => (Return a, st).

Definition bind {A B} (m : M A) (k : A -> M B) : M B :=
  fun st =>
    match m st with
    | (Return a, st') => k a st'
    | (Raise e, st') => (Raise e, st')
    end.

Definition lift {A} (r : result A) : M A := fun st => (r, st).

(** [self.<attribute>] *)
Definition getattr {A} (field : Filebase -> A) : M A :=
  fun st => (Return (field (self st)), st).

(** [self.<attribute> = a]; no method of the class uses it. *)
Definition setattr (update : Filebase -> Filebase) : M unit :=
  fun st => (Return tt, {| self := update (self st); log := log st |}).

(** [try: body  except Exception as error: handler(error)] *)
Definition try_except {A} (body : M A) (handler : Exc -> M A) : M A :=
  fun st =>
    match body st with
    | (Raise e, st') => if is_Exception e then handler e st' else (Raise e, st')
    | done => done
    end.

(** [except Exception as error: return error] *)
Definition return_error (error : Exc) : M PyVal := ret (VExc error).

Declare Scope M_scope.
Delimit Scope M_scope with M.
Notation "x <- m ;; k" := (bind m (fun x => k))
  (at level 61, m at next level, right associativity) : M_scope.

(** [bytes(s, 'utf-8')] and [b.decode('utf-8')] as expressions. *)
Definition bytes_utf8 (s : pystr) : result pybytes :=
  match utf8_encode s with
  | Some b => Return b
  | None => Raise (mkExc UnicodeEncodeError (lit "surrogates not allowed"))
  end.

Definition decode_utf8 (b : pybytes) : result pystr :=
  match utf8_decode b with
  | Some s => Return s
  | None => Raise (mkExc UnicodeDecodeError (lit "invalid start byte"))
  end.

(** [str.lower] on text of the ASCII range. *)
Definition ascii_lower (s : pystr) : pystr :=
  map (fun c => if (65 <=? c) && (c <=? 90) then c + 32 else c) s.

(** [handle_error] *)
Definition handle_error (response : PyVal) : result PyVal :=
  (if isinstance_dict response then
     m1 <- getitem response "ResponseMetadata" ;;
     status <- getitem m1 "HTTPStatusCode" ;;
     m2 <- getitem response "ResponseMetadata" ;;
     reason <- getitem m2 "HTTPStatusCode" ;;
     Return (VDict [(VStr (lit "status"), status);
                    (VStr (lit "reason"), reason);
                    (VStr (lit "text"), response)])
   else
     status <- attr_status_code response ;;
     reason <- attr_reason response ;;
     text <- attr_text response ;;
     Return (VDict [(VStr (lit "status"), status);
                    (VStr (lit "reason"), reason);
                    (VStr (lit "text"), text)]))%result.

(** [response['ResponseMetadata']['HTTPStatusCode']] *)
Definition http_status_code (response : PyVal) : result PyVal :=
  (m <- getitem response "ResponseMetadata" ;; getitem m "HTTPStatusCode")%result.

(** [response['ResponseMetadata']['HTTPHeaders']['x-amz-meta-cid']] *)
Definition cid_header (response : PyVal) : result PyVal :=
  (m <- getitem response "ResponseMetadata" ;;
   h <- getitem m "HTTPHeaders" ;;
   getitem h "x-amz-meta-cid")%result.

Section Client.

(** The interpreter, [str.lower], which follows the Unicode character
    database, and the outside world. *)
Variable py : Interpreter.
Variable lower : pystr -> pystr.
Variable world : World.

(** An outside call: answered by the world and entered in the log. *)
Definition call (c : Call) : M PyVal :=
  fun st => (world (log st) c, {| self := self st; log := log st ++ [c] |}).

Local Open Scope M_scope.

(** [create_bucket]: the block under [try]. *)
Definition create_bucket_try (name : pystr) : M PyVal :=
  client <- getattr s3 ;;
  response <- call (S3_create_bucket client (lower name)) ;;
  code <- lift (http_status_code response) ;;
  if eq_int code 200 then ret response else lift (handle_error response).

Definition create_bucket (name : pystr) : M PyVal :=
  try_except (create_bucket_try name) return_error.

(** [list_pinned_objects]: the statements before [try] build the
    headers; [headers] and [_auth_headers] name one dict. *)
Definition token_text (key secret bucket : pystr) : pystr :=
  key ++ lit ":" ++ secret ++ lit ":" ++ bucket.

Definition pins_url : pystr := API_ENDPOINT ++ lit "ipfs/pins".

Definition pins_headers (bucket : pystr) : M PyVal :=
  key <- getattr filebase_api_key ;;
  secret <- getattr filebase_secret_api_key ;;
  token <- lift (bytes_utf8 (token_text key secret bucket)) ;;
  base64encoded <- lift (decode_utf8 (b64encode token)) ;;
  let _auth_headers :=
    [(VStr (lit "Authorization"), VStr (lit "Bearer " ++ base64encoded))] in
  let headers :=
    dict_set _auth_headers (lit "Content-Type") (VStr (lit "application/json")) in
  ret (VDict headers).

Definition list_pinned_objects_try (headers : PyVal) : M PyVal :=
  response <- call (Requests_get pins_url headers) ;;
  ok <- lift (attr_ok response) ;;
  if ok then lift (call_json response) else lift (handle_error response).

Definition list_pinned_objects (bucket : pystr) : M PyVal :=
  headers <- pins_headers bucket ;;
  try_except (list_pinned_objects_try headers) return_error.

(** [list_buckets] *)
Definition list_buckets_try : M PyVal :=
  client <- getattr s3 ;;
  response <- call (S3_list_buckets client) ;;
  code <- lift (http_status_code response) ;;
  if eq_int code 200 then lift (getitem response "Buckets")
  else lift (handle_error response).

Definition list_buckets : M PyVal :=
  try_except list_buckets_try return_error.

(** [upload_object] *)
Definition upload_object_try (path_to_file name bucket : pystr) : M PyVal :=
  file <- call (Open_rb path_to_file) ;;
  client <- getattr s3 ;;
  response <- call (S3_put_object client file (lower bucket) name) ;;
  code <- lift (http_status_code response) ;;
  if eq_int code 200 then lift (cid_header response)
  else lift (handle_error response).

Definition upload_object (path_to_file name bucket : pystr) : M PyVal :=
  try_except (upload_object_try path_to_file name bucket) return_error.

(** [delete_object] *)
Definition delete_object_try (name bucket : pystr) : M PyVal :=
  client <- getattr s3 ;;
  response <- call (S3_delete_object client (lower bucket) name) ;;
  code <- lift (http_status_code response) ;;
  if eq_int code 200 then ret response else lift (handle_error response).

Definition delete_object (name bucket : pystr) : M PyVal :=
  try_except (delete_object_try name bucket) return_error.

(** [upload_metadata] *)
Definition upload_metadata_try (data : PyVal) (name bucket : pystr) : M PyVal :=
  text <- lift (json_dumps py data) ;;
  encoded_metadata <- lift (bytes_utf8 text) ;;
  client <- getattr s3 ;;
  response <- call (S3_put_object client (VBytes encoded_metadata) (lower bucket) name) ;;
  code <- lift (http_status_code response) ;;
  if eq_int code 200 then lift (cid_header response)
  else lift (handle_error response).

Definition upload_metadata (data : PyVal) (name bucket : pystr) : M PyVal :=
  try_except (upload_metadata_try data name bucket) return_error.

(** A call of one of the six methods, and a run of several on one
    object; the caller goes on whatever a call gave. *)
Inductive Op : Type :=
  | Create_bucket (name : pystr)
  | List_pinned_objects (bucket : pystr)
  | List_buckets
  | Upload_object (path_to_file name bucket : pystr)
  | Delete_object (name bucket : pystr)
  | Upload_metadata (data : PyVal) (name bucket : pystr).

Definition run_op (op : Op) : M PyVal :=
  match op with
  | Create_bucket name => create_bucket name
  | List_pinned_objects bucket => list_pinned_objects bucket
  | List_buckets => list_buckets
  | Upload_object path_to_file name bucket => upload_object path_to_file name bucket
  | Delete_object name bucket => delete_object name bucket
  | Upload_metadata data name bucket => upload_metadata data name bucket
  end.

Fixpoint run_ops (ops : list Op) (st : State) : State :=
  match ops with
  | [] => st
  | op :: ops' => run_ops ops' (snd (run_op op st))
  end.

(** The block under [try] that a call reaches from [st], if it reaches
    it: [list_pinned_objects] has statements before its [try]. *)
Definition try_block (op : Op) (st : State) : option (M PyVal) :=
  match op with
  | Create_bucket name => Some (create_bucket_try name)
  | List_pinned_objects bucket =>
      match fst (pins_headers bucket st) with
      | Return headers => Some (list_pinned_objects_try headers)
      | Raise _ => None
      end
  | List_buckets => Some list_buckets_try
  | Upload_object path_to_file name bucket =>
      Some (upload_object_try path_to_file name bucket)
  | Delete_object name bucket => Some (delete_object_try name bucket)
  | Upload_metadata data name bucket => Some (upload_metadata_try data name bucket)
  end.

End Client.


(* ===================================================================== *)
(** * Records and sample values used in the statements *)
(* ===================================================================== *)

(** The record [handle_error] builds. *)
Definition error_record (status reason text : PyVal) : PyVal :=
  VDict [(VStr (lit "status"), status);
         (VStr (lit "reason"), reason);
         (VStr (lit "text"), text)].

Definition sample_s3_error : PyVal :=
  VDict [(VStr (lit "ResponseMetadata"),
          VDict [(VStr (lit "HTTPStatusCode"), VInt 403);
                 (VStr (lit "HTTPHeaders"), VDict [])])].

Definition sample_http_error : PyVal :=
  VResponse 500 (lit "Internal Server Error") (lit "oops")
            (Raise (mkExc JSONDecodeError (lit "Expecting value"))).


(** The headers [list_pinned_objects] sends for the token octets [tb]. *)
Definition bearer_headers (tb : pybytes) : PyVal :=
  VDict [(VStr (lit "Authorization"), VStr (lit "Bearer " ++ b64encode tb));
         (VStr (lit "Content-Type"), VStr (lit "application/json"))].

(** A client built from two sample credentials, before any call. *)
Definition sample_client : State :=
  {| self := Filebase__init__ (lit "key") (lit "secret"); log := [] |}.

(** A world in which every call is answered with [None]. *)
Definition silent_world : World := fun _ _ => Return VNone.

(** A world in which the user interrupts every call. *)
Definition interrupted_world : World :=
  fun _ _ => Raise (mkExc KeyboardInterrupt []).

(** A world whose REST service answers every request with [response]. *)
Definition rest_world (response : PyVal) : World :=
  fun _ c =>
    match c with
    | Requests_get _ _ => Return response
    | _ => Return VNone
    end.

(** A world whose files open and whose object store answers every put
    with [response]. *)
Definition store_world (response : PyVal) : World :=
  fun _ c =>
    match c with
    | Open_rb path => Return (VFile path)
    | S3_put_object _ _ _ _ => Return response
    | _ => Return VNone
    end.

(** An object-store response with the given status code and headers. *)
Definition s3_response (code : Z) (headers : items) : PyVal :=
  VDict [(VStr (lit "ResponseMetadata"),
          VDict [(VStr (lit "HTTPStatusCode"), VInt code);
                 (VStr (lit "HTTPHeaders"), VDict headers)])].

(** A method body that leaves the attributes of [self] as they are. *)
Definition keeps_self {A} (m : M A) : Prop :=
  forall st, self (snd (m st)) = self st.

(** A world without the file: [open] raises [FileNotFoundError]. *)
Definition missing_file_world : World :=
  fun _ c =>
    match c with
    | Open_rb path => Raise (mkExc FileNotFoundError path)
    | _ => Return VNone
    end.

Definition sample_ok_response : PyVal :=
  VResponse 200 (lit "OK") (lit "[]") (Return (VList [])).

Definition sample_html_response : PyVal :=
  VResponse 200 (lit "OK") (lit "<html></html>")
            (Raise (mkExc JSONDecodeError (lit "Expecting value"))).

(* ===================================================================== *)
(** * The values that JSON gives back *)
(* ===================================================================== *)






(** The same float, bit for bit: NaN is the same as NaN and the two
    zeros differ. *)
Definition same_float (a b : spec_float) : bool :=
  match a, b with
  | S754_zero s, S754_zero s' => Bool.eqb s s'
  | S754_infinity s, S754_infinity s' => Bool.eqb s s'
  | S754_nan, S754_nan => true
  | S754_finite s m e, S754_finite s' m' e' =>
      Bool.eqb s s' && Pos.eqb m m' && Z.eqb e e'
  | _, _ => false
  end.





(** The separator between the items of a container printed at [level]. *)
Definition item_separator (level : nat) : pystr := lit "," ++ newline_indent level.

(** The chunk [_iterencode_dict] writes for one item. *)
Definition encode_item (py : Interpreter) (level : nat) (kv : PyVal * PyVal)
  : result pystr :=
  match key_text py level (fst kv) with
  | Raise e => Raise e
  | Return k =>
      match iterencode py level (snd kv) with
      | Raise e => Raise e
      | Return v => Return (encode_basestring_ascii k ++ lit ": " ++ v)
      end
  end.


Section PyVal_nested_ind.

Variable P : PyVal -> Prop.
Hypothesis HNone : P VNone.
Hypothesis HBool : forall b, P (VBool b).
Hypothesis HInt : forall z, P (VInt z).
Hypothesis HFloat : forall x, P (VFloat x).
Hypothesis HStr : forall s, P (VStr s).
Hypothesis HBytes : forall b, P (VBytes b).
Hypothesis HList : forall l, Forall P l -> P (VList l).
Hypothesis HTuple : forall l, Forall P l -> P (VTuple l).
Hypothesis HDict : forall d, Forall (fun kv => P (snd kv)) d -> P (VDict d).
Hypothesis HFile : forall path, P (VFile path).
Hypothesis HResponse : forall c r t j, P (VResponse c r t j).
Hypothesis HExc : forall e, P (VExc e).

(** Induction on values that reaches the members of lists, tuples and
    dicts. *)
Fixpoint PyVal_nested_ind (v : PyVal) : P v :=
  match v with
  | VNone => HNone
  | VBool b => HBool b
  | VInt z => HInt z
  | VFloat x => HFloat x
  | VStr s => HStr s
  | VBytes b => HBytes b
  | VList l =>
      HList ((fix members (l : list PyVal) : Forall P l :=
                match l with
                | [] => Forall_nil P
                | x :: r => Forall_cons x (PyVal_nested_ind x) (members r)
                end) l)
  | VTuple l =>
      HTuple ((fix members (l : list PyVal) : Forall P l :=
                 match l with
                 | [] => Forall_nil P
                 | x :: r => Forall_cons x (PyVal_nested_ind x) (members r)
                 end) l)
  | VDict d =>
      HDict ((fix members (d : items) : Forall (fun kv => P (snd kv)) d :=
                match d with
                | [] => Forall_nil _
                | kv :: r =>
                    @Forall_cons _ (fun kv => P (snd kv)) kv r
                                 (PyVal_nested_ind (snd kv)) (members r)
                end) d)
  | VFile path => HFile path
  | VResponse c r t j => HResponse c r t j
  | VExc e => HExc e
  end.

End PyVal_nested_ind.







(* ===================================================================== *)
(** * The layout of a pretty-printed text *)
(* ===================================================================== *)




(* ===================================================================== *)
(** * Sample interpreter and sample data *)
(* ===================================================================== *)

(** The floats 1.5 and 0.1. *)
Definition float_1_5 : spec_float := S754_finite false 6755399441055744 (-52).
Definition float_0_1 : spec_float := S754_finite false 7205759403792794 (-56).

(** The literals [1.5], [0.1], [0.0] and [-0.0]. *)
Definition literal_1_5 : FloatLiteral :=
  mkFloatLiteral false 1 (Fraction (mkDigits 0 5) None).
Definition literal_0_1 : FloatLiteral :=
  mkFloatLiteral false 0 (Fraction (mkDigits 0 1) None).
Definition literal_zero (negative : bool) : FloatLiteral :=
  mkFloatLiteral negative 0 (Fraction (mkDigits 0 0) None).

Definition same_digits (a b : Digits) : bool :=
  Nat.eqb (leading_zeros a) (leading_zeros b)
  && N.eqb (digits_value a) (digits_value b).

(** A literal with a fraction and no exponent, by its parts. *)
Definition is_fraction (l : FloatLiteral) (negative : bool) (int : N) (frac : Digits)
  : bool :=
  match lit_tail l with
  | Fraction f None =>
      Bool.eqb (lit_negative l) negative && N.eqb (lit_integer l) int
      && same_digits f frac
  | _ => false
  end.

(** An interpreter with the default limit on digits, room on the stack
    for 900 containers, and the two conversions of floats as Python has
    them on the floats and the literals above. *)
Definition sample_py : Interpreter :=
  {| int_max_str_digits := 4300;
     has_stack := fun level _ => Nat.ltb level 900;
     key_has_stack := fun level _ => Nat.ltb level 900;
     float_repr := fun x =>
       if same_float x float_1_5 then literal_1_5
       else if same_float x float_0_1 then literal_0_1
       else match x with
            | S754_zero s => literal_zero s
            | _ => literal_zero false
            end;
     float_of_literal := fun l =>
       if is_fraction l false 1 (mkDigits 0 5) then float_1_5
       else if is_fraction l false 0 (mkDigits 0 1) then float_0_1
       else S754_zero (lit_negative l) |}.

Definition sample_metadata : PyVal :=
  VDict [(VStr (lit "name"), VStr (lit "item"));
         (VStr (lit "tags"), VList [VInt 1; VBool true; VNone]);
         (VStr (lit "size"), VFloat float_1_5)].

(** The text [json.dumps(sample_metadata, indent=4)], character by
    character: the members of the dict are four spaces in, those of the
    list eight. *)
Definition sample_metadata_text : pystr :=
  lit "{" ++ [10] ++ lit "    " ++ [quote] ++ lit "name" ++ [quote] ++ lit ": "
  ++ [quote] ++ lit "item" ++ [quote] ++ lit "," ++ [10]
  ++ lit "    " ++ [quote] ++ lit "tags" ++ [quote] ++ lit ": [" ++ [10]
  ++ lit "        1," ++ [10]
  ++ lit "        true," ++ [10]
  ++ lit "        null" ++ [10]
  ++ lit "    ]," ++ [10]
  ++ lit "    " ++ [quote] ++ lit "size" ++ [quote] ++ lit ": 1.5" ++ [10]
  ++ lit "}".


(* ===================================================================== *)
(** * Further worlds and predicates used in the statements *)
(* ===================================================================== *)

(** A world that gives the same answer to every call. *)
Definition constant_world (answer : result PyVal) : World := fun _ _ => answer.

(** A world whose files open and whose object store raises [error] on
    every put. *)
Definition failing_store_world (error : Exc) : World :=
  fun _ c =>
    match c with
    | Open_rb path => Return (VFile path)
    | _ => Raise error
    end.

(** An object-store answer to [list_buckets] with the given buckets. *)
Definition buckets_response (code : Z) (buckets : list PyVal) : PyVal :=
  VDict [(VStr (lit "ResponseMetadata"),
          VDict [(VStr (lit "HTTPStatusCode"), VInt code)]);
         (VStr (lit "Buckets"), VList buckets)].

(** The calls an operation adds to the log when it is run from [st]:
    one call to the store for [create_bucket], [list_buckets] and
    [delete_object]; the opening of the file and, if it opens, one put for
    [upload_object]; one put if the data serializes for [upload_metadata];
    one GET if the token can be built for [list_pinned_objects]. *)
Definition op_calls (py : Interpreter) (lower : pystr -> pystr) (world : World)
    (op : Op) (st : State) : list Call :=
  match op with
  | Create_bucket name => [S3_create_bucket (s3 (self st)) (lower name)]
  | List_pinned_objects bucket =>
      match utf8_encode (token_text (filebase_api_key (self st))
                                    (filebase_secret_api_key (self st)) bucket) with
      | Some tb => [Requests_get pins_url (bearer_headers tb)]
      | None => []
      end
  | List_buckets => [S3_list_buckets (s3 (self st))]
  | Upload_object path_to_file name bucket =>
      match world (log st) (Open_rb path_to_file) with
      | Return file =>
          [Open_rb path_to_file;
           S3_put_object (s3 (self st)) file (lower bucket) name]
      | Raise _ => [Open_rb path_to_file]
      end
  | Delete_object name bucket => [S3_delete_object (s3 (self st)) (lower bucket) name]
  | Upload_metadata data name bucket =>
      match json_dumps py data with
      | Return text => [S3_put_object (s3 (self st)) (VBytes text) (lower bucket) name]
      | Raise _ => []
      end
  end.

(** The handle a call goes through, for the calls to the object store. *)
Definition call_client (c : Call) : option S3Client :=
  match c with
  | S3_create_bucket client _ => Some client
  | S3_list_buckets client => Some client
  | S3_put_object client _ _ _ => Some client
  | S3_delete_object client _ _ => Some client
  | Open_rb _ | Requests_get _ _ | Print _ _ => None
  end.

(** Every call to the object store in the log goes through [client]. *)
Definition through_client (client : S3Client) (calls : list Call) : Prop :=
  Forall (fun c => forall h, call_client c = Some h -> h = client) calls.

(** Every member is an octet. *)
Definition octets (b : pybytes) : bool := forallb (fun x => x <? 256) b.





(** The classes of the exceptions [json.dumps] raises. *)
Definition dumps_error (e : Exc) : Prop :=
  exc_class e = TypeError \/ exc_class e = ValueError
  \/ exc_class e = RecursionError.

(** A caller that runs one operation after the other on the same object
    and keeps each result: it stops at the first call that raises. *)
Fixpoint run_script (py : Interpreter) (lower : pystr -> pystr) (world : World)
    (ops : list Op) : M (list PyVal) :=
  match ops with
  | [] => ret []
  | op :: ops' =>
      bind (run_op py lower world op)
           (fun v => bind (run_script py lower world ops')
                          (fun vs => ret (v :: vs)))
  end.






(** The calls a run of operations adds to the log, one operation after
    the other. *)
Fixpoint ops_calls (py : Interpreter) (lower : pystr -> pystr) (world : World)
    (ops : list Op) (st : State) : list Call :=
  match ops with
  | [] => []
  | op :: ops' =>
      op_calls py lower world op st
      ++ ops_calls py lower world ops' (snd (run_op py lower world op st))
  end.


(** A script whose second call names a bucket with a lone surrogate. *)
Definition surrogate_script : list Op :=
  [Create_bucket (lit "mynewbucket"); List_pinned_objects [0xD800]].
(* ===================================================================== *)
(** * Facts about text and bytes *)
(* ===================================================================== *)

Unset Implicit Arguments.

(** Test vectors of RFC 4648 and of the Unicode standard. *)
Example b64_Man : b64encode (lit "Man") = lit "TWFu".
Proof. reflexivity. Qed.
Example b64_Ma : b64encode (lit "Ma") = lit "TWE=".
Proof. reflexivity. Qed.
Example b64_M : b64encode (lit "M") = lit "TQ==".
Proof. reflexivity. Qed.
Example b64_foobar : b64encode (lit "foobar") = lit "Zm9vYmFy".
Proof. reflexivity. Qed.
Example utf8_euro : utf8_encode [0x20AC] = Some [0xE2; 0x82; 0xAC].
Proof. reflexivity. Qed.
Example utf8_emoji : utf8_encode [0x1F600] = Some [0xF0; 0x9F; 0x98; 0x80].
Proof. reflexivity. Qed.
Example utf8_surrogate : utf8_encode [0xD800] = None.
Proof. reflexivity. Qed.
Example utf8_decode_emoji :
  utf8_decode [0xF0; 0x9F; 0x98; 0x80; 0x41] = Some [0x1F600; 0x41].
Proof. reflexivity. Qed.
Example utf8_decode_overlong : utf8_decode [0xC0; 0x80] = None.
Proof. reflexivity. Qed.
Example utf8_decode_strict : utf8_decode [0xED; 0xA0; 0x80] = None.
Proof. reflexivity. Qed.
Example utf8_decode_pass : utf8_decode_surrogatepass [0xED; 0xA0; 0x80] = Some [0xD800].
Proof. reflexivity. Qed.


Lemma str_eqb_eq (a b : pystr) : str_eqb a b = true <-> a = b.
Proof.
  unfold str_eqb. destruct (list_eq_dec N.eq_dec a b); split; congruence.
Qed.

Lemma str_eqb_refl (a : pystr) : str_eqb a a = true.
Proof. now apply str_eqb_eq. Qed.

Lemma str_eqb_neq (a b : pystr) : a <> b -> str_eqb a b = false.
Proof.
  intros H. destruct (str_eqb a b) eqn:E; [|reflexivity].
  apply str_eqb_eq in E. contradiction.
Qed.

(** ASCII text encodes to itself, octet for code point. *)
Lemma utf8_encode_ascii (s : pystr) :
  is_ascii s = true -> utf8_encode s = Some s.
Proof.
  induction s as [|c s IH]; simpl; [reflexivity|].
  intros H. apply andb_true_iff in H as [Hc Hs].
  unfold utf8_encode_char. change 0x80 with 128. rewrite Hc, (IH Hs). reflexivity.
Qed.

Lemma utf8_decode_aux_ascii (pass : bool) (s : pystr) (fuel : nat) :
  is_ascii s = true -> (length s <= fuel)%nat ->
  utf8_decode_aux pass fuel s = Some s.
Proof.
  revert fuel. induction s as [|c s IH]; intros fuel H Hl.
  - destruct fuel; reflexivity.
  - destruct fuel as [|fuel]; [simpl in Hl; lia|].
    simpl in H. apply andb_true_iff in H as [Hc Hs].
    simpl. change 0x80 with 128. rewrite Hc, IH; [reflexivity|assumption|simpl in Hl; lia].
Qed.

Lemma utf8_decode_ascii (s : pystr) :
  is_ascii s = true -> utf8_decode s = Some s.
Proof. intros H. apply utf8_decode_aux_ascii; [assumption|lia]. Qed.

Lemma utf8_decode_surrogatepass_ascii (s : pystr) :
  is_ascii s = true -> utf8_decode_surrogatepass s = Some s.
Proof. intros H. apply utf8_decode_aux_ascii; [assumption|lia]. Qed.

Lemma b64_char_ascii (i : N) : (b64_char i <? 128) = true.
Proof.
  unfold b64_char. apply N.ltb_lt.
  destruct (i <? 26) eqn:E1; [apply N.ltb_lt in E1; lia|].
  destruct (i <? 52) eqn:E2; [apply N.ltb_lt in E2; lia|].
  destruct (i <? 62) eqn:E3; [apply N.ltb_lt in E3; lia|].
  destruct (i =? 62); lia.
Qed.

(** Base64 text is ASCII; the induction follows [b64encode], three
    octets at a time. *)
Lemma b64encode_ascii (b : pybytes) : is_ascii (b64encode b) = true.
Proof.
  assert (H : forall n (b : pybytes), (length b <= n)%nat -> is_ascii (b64encode b) = true).
  { induction n as [|n IH]; intros [|x [|y [|z r]]] Hl; simpl in Hl; try lia;
      try reflexivity;
      cbn [b64encode is_ascii forallb]; rewrite ?b64_char_ascii; try reflexivity.
    apply IH. lia. }
  apply (H (length b)). lia.
Qed.

(** Decoding the Base64 text never fails. *)
Lemma decode_b64encode (b : pybytes) :
  decode_utf8 (b64encode b) = Return (b64encode b).
Proof.
  unfold decode_utf8. rewrite utf8_decode_ascii; [reflexivity|apply b64encode_ascii].
Qed.

(* ===================================================================== *)
(** * The error record *)
(* ===================================================================== *)

Lemma http_status_code_dict (response code : PyVal) :
  http_status_code response = Return code -> isinstance_dict response = true.
Proof.
  destruct response; simpl; try reflexivity; discriminate.
Qed.

Lemma handle_error_dict (response code : PyVal) :
  http_status_code response = Return code ->
  handle_error response = Return (error_record code code response).
Proof.
  intros H. unfold handle_error.
  rewrite (http_status_code_dict _ _ H).
  unfold http_status_code, rbind in H.
  unfold rbind.
  destruct (getitem response "ResponseMetadata") as [m|e]; [|discriminate].
  rewrite H. reflexivity.
Qed.

(** C2.  [handle_error] on a dict that carries an HTTP status code gives
    the record whose [status] and [reason] are both that code and whose
    [text] is the whole dict; on an HTTP response object it gives the
    record of its status code, reason phrase and body text. *)
Theorem handle_error_spec (response : PyVal) :
  (forall code,
      isinstance_dict response = true ->
      http_status_code response = Return code ->
      handle_error response = Return (error_record code code response))
  /\
  (forall status_code reason text json,
      response = VResponse status_code reason text json ->
      handle_error response
      = Return (error_record (VInt status_code) (VStr reason) (VStr text))).
Proof.
  split.
  - intros code _ H. now apply handle_error_dict.
  - intros c r t j ->. reflexivity.
Qed.

Lemma handle_error_spec_witness :
  handle_error sample_s3_error
  = Return (error_record (VInt 403) (VInt 403) sample_s3_error)
  /\ handle_error sample_http_error
     = Return (error_record (VInt 500) (VStr (lit "Internal Server Error"))
                            (VStr (lit "oops"))).
Proof.
  split.
  - apply (proj1 (handle_error_spec sample_s3_error)); reflexivity.
  - apply (proj2 (handle_error_spec sample_http_error) 500%Z
                 (lit "Internal Server Error") (lit "oops")
                 (Raise (mkExc JSONDecodeError (lit "Expecting value")))).
    reflexivity.
Defined.

(* ===================================================================== *)
(** * The operations *)
(* ===================================================================== *)

Ltac unfold_M :=
  unfold bind, lift, ret, getattr, call, try_except, return_error in *;
  cbn [fst snd self log] in *.

Lemma float_eq_200 (x : spec_float) : float_eq x float_200 = true <-> x = float_200.
Proof.
  unfold float_eq, SFeqb, float_200. split; [|intros ->; reflexivity].
  destruct x as [s|s| |s m e]; try destruct s; cbn [SFcompare];
    try discriminate.
  destruct (Z.compare e (-45)) eqn:Ee; try discriminate.
  destruct (Pos.compare_cont Eq m 7036874417766400) eqn:Em; try discriminate.
  apply Z.compare_eq in Ee. apply Pos.compare_eq in Em. now subst.
Qed.

(** [code == 200] holds of the integer 200 and of the float 200.0. *)
Lemma eq_int_200 (code : PyVal) :
  eq_int code 200 = true <-> code = VInt 200 \/ code = VFloat float_200.
Proof.
  destruct code; cbn [eq_int]; split;
    try discriminate; intros H; try (destruct H as [H|H]; discriminate).
  - destruct b; discriminate.
  - apply Z.eqb_eq in H. left. now subst.
  - destruct H as [H|H]; [|discriminate]. injection H as ->. reflexivity.
  - right. f_equal. now apply float_eq_200.
  - destruct H as [H|H]; [discriminate|]. injection H as ->. reflexivity.
Qed.

Lemma eq_int_not_200 (code : PyVal) :
  code <> VInt 200 -> code <> VFloat float_200 -> eq_int code 200 = false.
Proof.
  intros H1 H2. destruct (eq_int code 200) eqn:E; [|reflexivity].
  apply eq_int_200 in E as [E|E]; contradiction.
Qed.

Lemma getitem_found (d : items) (k : string) (v : PyVal) :
  dict_get d (lit k) = Some v -> getitem (VDict d) k = Return v.
Proof. intros H. cbn [getitem]. rewrite H. reflexivity. Qed.

Lemma is_Exception_class (e : Exc) :
  exc_class e = KeyError \/ exc_class e = JSONDecodeError ->
  is_Exception e = true.
Proof. unfold is_Exception. intros [-> | ->]; reflexivity. Qed.

Section ClientFacts.

Variable lower : pystr -> pystr.
Variable world : World.

(** ** [list_pinned_objects] *)

Lemma pins_headers_ok (bucket : pystr) (st : State) (tb : pybytes) :
  utf8_encode (token_text (filebase_api_key (self st))
                          (filebase_secret_api_key (self st)) bucket) = Some tb ->
  pins_headers bucket st = (Return (bearer_headers tb), st).
Proof.
  intros H. unfold pins_headers, bytes_utf8. unfold_M.
  rewrite H, decode_b64encode. reflexivity.
Qed.

Lemma pins_headers_raises (bucket : pystr) (st : State) :
  utf8_encode (token_text (filebase_api_key (self st))
                          (filebase_secret_api_key (self st)) bucket) = None ->
  list_pinned_objects world bucket st
  = (Raise (mkExc UnicodeEncodeError (lit "surrogates not allowed")), st).
Proof.
  intros H. unfold list_pinned_objects, pins_headers, bytes_utf8. unfold_M.
  rewrite H. reflexivity.
Qed.

(** C3.  When the REST service answers the request with an HTTP
    response: on an OK status the operation returns the parsed JSON
    body, on any other status it returns the error record of the status
    code, the reason phrase and the body text, without raising. *)
Theorem list_pinned_objects_response
    (bucket : pystr) (st : State) (tb : pybytes)
    (status_code : Z) (reason text : pystr) (json : result PyVal) :
  utf8_encode (token_text (filebase_api_key (self st))
                          (filebase_secret_api_key (self st)) bucket) = Some tb ->
  world (log st) (Requests_get pins_url (bearer_headers tb))
  = Return (VResponse status_code reason text json) ->
  (forall body, status_ok status_code = true -> json = Return body ->
     fst (list_pinned_objects world bucket st) = Return body)
  /\
  (status_ok status_code = false ->
     fst (list_pinned_objects world bucket st)
     = Return (error_record (VInt status_code) (VStr reason) (VStr text))).
Proof.
  intros Htb Hw. unfold list_pinned_objects, bind.
  rewrite (pins_headers_ok _ _ _ Htb).
  unfold list_pinned_objects_try. unfold_M. rewrite Hw. cbn [attr_ok].
  split.
  - intros body -> ->. reflexivity.
  - intros ->. reflexivity.
Qed.

(** C9.  When the REST service answers with an OK status and a body
    that is not JSON, so that [response.json()] raises the decoding
    error, the operation returns that exception value. *)
Theorem list_pinned_objects_invalid_json
    (bucket : pystr) (st : State) (tb : pybytes)
    (status_code : Z) (reason text : pystr) (error : Exc) :
  utf8_encode (token_text (filebase_api_key (self st))
                          (filebase_secret_api_key (self st)) bucket) = Some tb ->
  world (log st) (Requests_get pins_url (bearer_headers tb))
  = Return (VResponse status_code reason text (Raise error)) ->
  status_ok status_code = true ->
  exc_class error = JSONDecodeError ->
  fst (list_pinned_objects world bucket st) = Return (VExc error).
Proof.
  intros Htb Hw Hok Hc. unfold list_pinned_objects, bind.
  rewrite (pins_headers_ok _ _ _ Htb).
  unfold list_pinned_objects_try. unfold_M. rewrite Hw. cbn [attr_ok].
  rewrite Hok. cbn [call_json].
  rewrite is_Exception_class by (now right). reflexivity.
Qed.

(** C6 (amended).  When the text [api_key:secret_key:bucket] has a
    UTF-8 encoding, the operation makes exactly one outside call: the
    GET of the base URL followed by [ipfs/pins], with [Authorization]
    set to [Bearer] and the Base64 text of that encoding, and
    [Content-Type] set to [application/json]. *)
Theorem list_pinned_objects_request
    (bucket : pystr) (st : State) (tb : pybytes) :
  utf8_encode (token_text (filebase_api_key (self st))
                          (filebase_secret_api_key (self st)) bucket) = Some tb ->
  log (snd (list_pinned_objects world bucket st))
  = log st ++
    [Requests_get
       (API_ENDPOINT ++ lit "ipfs/pins")
       (VDict [(VStr (lit "Authorization"), VStr (lit "Bearer " ++ b64encode tb));
               (VStr (lit "Content-Type"), VStr (lit "application/json"))])].
Proof.
  intros Htb. unfold list_pinned_objects, bind.
  rewrite (pins_headers_ok _ _ _ Htb).
  unfold list_pinned_objects_try. unfold_M.
  fold pins_url. fold (bearer_headers tb).
  destruct (world (log st) (Requests_get pins_url (bearer_headers tb))) as [r|e].
  - destruct (attr_ok r) as [[|]|e]; cbn [log snd].
    + destruct (call_json r) as [v|e]; [reflexivity|].
      destruct (is_Exception e); reflexivity.
    + destruct (handle_error r) as [v|e]; [reflexivity|].
      destruct (is_Exception e); reflexivity.
    + destruct (is_Exception e); reflexivity.
  - destruct (is_Exception e); reflexivity.
Qed.

End ClientFacts.

(* ===================================================================== *)
(** * Exceptions at the boundary of an operation *)
(* ===================================================================== *)

Lemma try_except_catches (body : M PyVal) (st st' : State) (e : Exc) :
  body st = (Raise e, st') -> is_Exception e = true ->
  try_except body return_error st = (Return (VExc e), st').
Proof.
  intros Hb He. unfold try_except, return_error, ret. rewrite Hb, He. reflexivity.
Qed.

Lemma try_except_skips (body : M PyVal) (st st' : State) (e : Exc) :
  body st = (Raise e, st') -> is_Exception e = false ->
  try_except body return_error st = (Raise e, st').
Proof.
  intros Hb He. unfold try_except. rewrite Hb, He. reflexivity.
Qed.

Lemma try_except_propagates (body : M PyVal) (st st' : State) (e : Exc) :
  try_except body return_error st = (Raise e, st') -> is_Exception e = false.
Proof.
  unfold try_except, return_error, ret.
  destruct (body st) as [[v|e0] st0].
  - discriminate.
  - destruct (is_Exception e0) eqn:E; [discriminate|].
    intros H. injection H as -> _. exact E.
Qed.

Lemma pins_headers_state (bucket : pystr) (st : State) :
  snd (pins_headers bucket st) = st.
Proof.
  unfold pins_headers. unfold_M.
  destruct (bytes_utf8 _); [|reflexivity].
  destruct (decode_utf8 _); reflexivity.
Qed.

Section Boundary.

Variable py : Interpreter.
Variable lower : pystr -> pystr.
Variable world : World.

(** C1 (amended).  For each of the six operations, once its [try] block
    is reached: an exception raised in the block that derives from
    [Exception] is caught, and the operation returns that exception
    value; an exception raised in the block that does not derive from
    [Exception] leaves the operation; and nothing that derives from
    [Exception] leaves it. *)
Theorem caught_exceptions_are_returned
    (op : Op) (st : State) (block : M PyVal) :
  try_block py lower world op st = Some block ->
  (forall e st',
      block st = (Raise e, st') -> is_Exception e = true ->
      run_op py lower world op st = (Return (VExc e), st'))
  /\
  (forall e st',
      block st = (Raise e, st') -> is_Exception e = false ->
      run_op py lower world op st = (Raise e, st'))
  /\
  (forall e st',
      run_op py lower world op st = (Raise e, st') -> is_Exception e = false).
Proof.
  intros Hb.
  assert (Hrun : run_op py lower world op st = try_except block return_error st).
  { destruct op; cbn [try_block run_op] in *;
      try (injection Hb as <-; reflexivity).
    unfold list_pinned_objects, bind.
    pose proof (pins_headers_state bucket st) as Hs.
    destruct (pins_headers bucket st) as [[h|e0] st0]; cbn [fst snd] in *;
      [|discriminate].
    subst st0. injection Hb as <-. reflexivity. }
  rewrite Hrun. repeat split.
  - intros e st' H1 H2. now apply try_except_catches.
  - intros e st' H1 H2. now apply try_except_skips.
  - intros e st' H. now apply try_except_propagates in H.
Qed.

End Boundary.

(* ===================================================================== *)
(** * The object is left as it was built *)
(* ===================================================================== *)

Lemma keeps_ret {A} (a : A) : keeps_self (ret a).
Proof. intros st. reflexivity. Qed.

Lemma keeps_lift {A} (r : result A) : keeps_self (lift r).
Proof. intros st. reflexivity. Qed.

Lemma keeps_getattr {A} (field : Filebase -> A) : keeps_self (getattr field).
Proof. intros st. reflexivity. Qed.

Lemma keeps_call (world : World) (c : Call) : keeps_self (call world c).
Proof. intros st. reflexivity. Qed.

Lemma keeps_bind {A B} (m : M A) (k : A -> M B) :
  keeps_self m -> (forall a, keeps_self (k a)) -> keeps_self (bind m k).
Proof.
  intros Hm Hk st. unfold bind. specialize (Hm st).
  destruct (m st) as [[a|e] st1]; cbn [snd] in *.
  - rewrite Hk. exact Hm.
  - exact Hm.
Qed.

Lemma keeps_try_except {A} (body : M A) (handler : Exc -> M A) :
  keeps_self body -> (forall e, keeps_self (handler e)) ->
  keeps_self (try_except body handler).
Proof.
  intros Hb Hh st. unfold try_except. specialize (Hb st).
  destruct (body st) as [[a|e] st1]; cbn [snd] in *.
  - exact Hb.
  - destruct (is_Exception e); cbn [snd].
    + rewrite Hh. exact Hb.
    + exact Hb.
Qed.

Lemma keeps_if {A} (b : bool) (m1 m2 : M A) :
  keeps_self m1 -> keeps_self m2 -> keeps_self (if b then m1 else m2).
Proof. destruct b; trivial. Qed.

Lemma keeps_return_error (e : Exc) : keeps_self (return_error e).
Proof. apply keeps_ret. Qed.

Create HintDb keeps.
#[local] Hint Resolve keeps_ret keeps_lift keeps_getattr keeps_call
  keeps_try_except keeps_if keeps_return_error : keeps.
#[local] Hint Extern 2 (keeps_self (bind _ _)) =>
  apply keeps_bind; [|intros ?] : keeps.

Section Frame.

Variable py : Interpreter.
Variable lower : pystr -> pystr.
Variable world : World.

Lemma run_op_keeps_self (op : Op) : keeps_self (run_op py lower world op).
Proof.
  destruct op; cbn [run_op];
    unfold create_bucket, create_bucket_try,
           list_pinned_objects, list_pinned_objects_try, pins_headers,
           list_buckets, list_buckets_try,
           upload_object, upload_object_try,
           delete_object, delete_object_try,
           upload_metadata, upload_metadata_try;
    auto 12 with keeps.
Qed.

(** C8.  Whatever sequence of operations is run on a client, its stored
    API key, secret key and object-store handle are afterwards what they
    were before. *)
Theorem operations_keep_client (ops : list Op) (st : State) :
  self (run_ops py lower world ops st) = self st
  /\ filebase_api_key (self (run_ops py lower world ops st)) = filebase_api_key (self st)
  /\ filebase_secret_api_key (self (run_ops py lower world ops st))
     = filebase_secret_api_key (self st)
  /\ s3 (self (run_ops py lower world ops st)) = s3 (self st).
Proof.
  assert (H : self (run_ops py lower world ops st) = self st).
  { revert st. induction ops as [|op ops IH]; intros st; cbn [run_ops].
    - reflexivity.
    - rewrite IH. apply run_op_keeps_self. }
  rewrite H. auto.
Qed.

End Frame.

(* ===================================================================== *)
(** * The uploads *)
(* ===================================================================== *)

Section Uploads.

Variable py : Interpreter.
Variable lower : pystr -> pystr.
Variable world : World.

(** What [upload_object] gives once the file is open and the store has
    answered. *)
Lemma upload_object_answered
    (path_to_file name bucket : pystr) (st : State)
    (file response code : PyVal) :
  world (log st) (Open_rb path_to_file) = Return file ->
  world (log st ++ [Open_rb path_to_file])
        (S3_put_object (s3 (self st)) file (lower bucket) name)
  = Return response ->
  http_status_code response = Return code ->
  fst (upload_object lower world path_to_file name bucket st)
  = if eq_int code 200
    then match cid_header response with
         | Return cid => Return cid
         | Raise e => if is_Exception e then Return (VExc e) else Raise e
         end
    else Return (error_record code code response).
Proof.
  intros Hopen Hput Hcode.
  unfold upload_object, upload_object_try. unfold_M.
  rewrite Hopen. cbn [log self]. rewrite Hput, Hcode.
  destruct (eq_int code 200).
  - destruct (cid_header response) as [cid|e]; [reflexivity|].
    destruct (is_Exception e); reflexivity.
  - rewrite (handle_error_dict _ _ Hcode). reflexivity.
Qed.

(** The same for [upload_metadata], once the data is serialized. *)
Lemma upload_metadata_answered
    (data : PyVal) (name bucket : pystr) (st : State)
    (text : pystr) (payload : pybytes) (response code : PyVal) :
  json_dumps py data = Return text ->
  utf8_encode text = Some payload ->
  world (log st) (S3_put_object (s3 (self st)) (VBytes payload) (lower bucket) name)
  = Return response ->
  http_status_code response = Return code ->
  fst (upload_metadata py lower world data name bucket st)
  = if eq_int code 200
    then match cid_header response with
         | Return cid => Return cid
         | Raise e => if is_Exception e then Return (VExc e) else Raise e
         end
    else Return (error_record code code response).
Proof.
  intros Hd Hu Hput Hcode.
  unfold upload_metadata, upload_metadata_try, bytes_utf8. unfold_M.
  rewrite Hd, Hu, Hput, Hcode.
  destruct (eq_int code 200).
  - destruct (cid_header response) as [cid|e]; [reflexivity|].
    destruct (is_Exception e); reflexivity.
  - rewrite (handle_error_dict _ _ Hcode). reflexivity.
Qed.

(** C7.  When the file opens and the store answers the put with a
    dict whose entry [ResponseMetadata] is a dict with the entry
    [HTTPStatusCode]: if that status code is 200 and the entry
    [HTTPHeaders] is a dict with the entry [x-amz-meta-cid],
    [upload_object] returns the value of that entry; if the status code
    is not 200 (neither the integer nor the float equal to it),
    [upload_object] returns the error record, whose [status] and [reason]
    are the status code and whose [text] is the whole response. *)
Theorem upload_object_result
    (path_to_file name bucket : pystr) (st : State)
    (file : PyVal) (response metadata : items) (code : PyVal) :
  world (log st) (Open_rb path_to_file) = Return file ->
  world (log st ++ [Open_rb path_to_file])
        (S3_put_object (s3 (self st)) file (lower bucket) name)
  = Return (VDict response) ->
  dict_get response (lit "ResponseMetadata") = Some (VDict metadata) ->
  dict_get metadata (lit "HTTPStatusCode") = Some code ->
  (forall headers cid,
     code = VInt 200 ->
     dict_get metadata (lit "HTTPHeaders") = Some (VDict headers) ->
     dict_get headers (lit "x-amz-meta-cid") = Some cid ->
     fst (upload_object lower world path_to_file name bucket st) = Return cid)
  /\
  (code <> VInt 200 -> code <> VFloat float_200 ->
     fst (upload_object lower world path_to_file name bucket st)
     = Return (VDict [(VStr (lit "status"), code);
                      (VStr (lit "reason"), code);
                      (VStr (lit "text"), VDict response)])).
Proof.
  intros Hopen Hput Hm Hcode.
  assert (Hsc : http_status_code (VDict response) = Return code).
  { unfold http_status_code, rbind.
    rewrite (getitem_found _ "ResponseMetadata" _ Hm).
    now apply getitem_found. }
  rewrite (upload_object_answered _ _ _ _ _ _ _ Hopen Hput Hsc).
  split.
  - intros headers cid -> Hh Hcid. cbn [eq_int Z.eqb Pos.eqb].
    unfold cid_header, rbind.
    rewrite (getitem_found _ "ResponseMetadata" _ Hm).
    rewrite (getitem_found _ "HTTPHeaders" _ Hh).
    rewrite (getitem_found _ "x-amz-meta-cid" _ Hcid). reflexivity.
  - intros Hne Hnf. rewrite (eq_int_not_200 _ Hne Hnf). reflexivity.
Qed.

Lemma cid_header_missing (response m : PyVal) (headers : items) :
  getitem response "ResponseMetadata" = Return m ->
  getitem m "HTTPHeaders" = Return (VDict headers) ->
  dict_get headers (lit "x-amz-meta-cid") = None ->
  cid_header response = Raise (mkExc KeyError (lit "x-amz-meta-cid")).
Proof.
  intros H1 H2 H3. unfold cid_header, rbind. rewrite H1, H2.
  cbn [getitem]. rewrite H3. reflexivity.
Qed.

(** C10.  When the store answers a put with status code 200 and
    response headers without [x-amz-meta-cid], [upload_object] and
    [upload_metadata] return the [KeyError] raised by the lookup of that
    header. *)
Theorem upload_without_cid_header
    (response m : PyVal) (headers : items) (name bucket : pystr) (st : State) :
  getitem response "ResponseMetadata" = Return m ->
  getitem m "HTTPStatusCode" = Return (VInt 200) ->
  getitem m "HTTPHeaders" = Return (VDict headers) ->
  dict_get headers (lit "x-amz-meta-cid") = None ->
  (forall path_to_file file,
      world (log st) (Open_rb path_to_file) = Return file ->
      world (log st ++ [Open_rb path_to_file])
            (S3_put_object (s3 (self st)) file (lower bucket) name)
      = Return response ->
      fst (upload_object lower world path_to_file name bucket st)
      = Return (VExc (mkExc KeyError (lit "x-amz-meta-cid"))))
  /\
  (forall data text payload,
      json_dumps py data = Return text ->
      utf8_encode text = Some payload ->
      world (log st)
            (S3_put_object (s3 (self st)) (VBytes payload) (lower bucket) name)
      = Return response ->
      fst (upload_metadata py lower world data name bucket st)
      = Return (VExc (mkExc KeyError (lit "x-amz-meta-cid")))).
Proof.
  intros Hm Hcode Hh Hmiss.
  assert (Hsc : http_status_code response = Return (VInt 200)).
  { unfold http_status_code, rbind. rewrite Hm. exact Hcode. }
  pose proof (cid_header_missing _ _ _ Hm Hh Hmiss) as Hcid.
  split.
  - intros path_to_file file Hopen Hput.
    rewrite (upload_object_answered _ _ _ _ _ _ _ Hopen Hput Hsc), Hcid. reflexivity.
  - intros data text payload Hd Hu Hput.
    rewrite (upload_metadata_answered _ _ _ _ _ _ _ _ Hd Hu Hput Hsc), Hcid. reflexivity.
Qed.

(** ** The names sent to the object store *)

(** The four operations on the object store send the bucket name in
    lower case and the object key as it was given. *)
Lemma create_bucket_call (name : pystr) (st : State) :
  log (snd (create_bucket lower world name st))
  = log st ++ [S3_create_bucket (s3 (self st)) (lower name)].
Proof.
  unfold create_bucket, create_bucket_try. unfold_M.
  destruct (world _ _) as [r|e]; cbn [log].
  - destruct (http_status_code r) as [c|e]; cbn [log].
    + destruct (eq_int c 200); [reflexivity|].
      destruct (handle_error r) as [v|e]; [reflexivity|].
      destruct (is_Exception e); reflexivity.
    + destruct (is_Exception e); reflexivity.
  - destruct (is_Exception e); reflexivity.
Qed.

Lemma delete_object_call (name bucket : pystr) (st : State) :
  log (snd (delete_object lower world name bucket st))
  = log st ++ [S3_delete_object (s3 (self st)) (lower bucket) name].
Proof.
  unfold delete_object, delete_object_try. unfold_M.
  destruct (world _ _) as [r|e]; cbn [log].
  - destruct (http_status_code r) as [c|e]; cbn [log].
    + destruct (eq_int c 200); [reflexivity|].
      destruct (handle_error r) as [v|e]; [reflexivity|].
      destruct (is_Exception e); reflexivity.
    + destruct (is_Exception e); reflexivity.
  - destruct (is_Exception e); reflexivity.
Qed.

Lemma upload_object_call (path_to_file name bucket : pystr) (st : State) (file : PyVal) :
  world (log st) (Open_rb path_to_file) = Return file ->
  log (snd (upload_object lower world path_to_file name bucket st))
  = log st ++ [Open_rb path_to_file;
               S3_put_object (s3 (self st)) file (lower bucket) name].
Proof.
  intros Hopen. unfold upload_object, upload_object_try. unfold_M.
  rewrite Hopen. cbn [log self].
  destruct (world (log st ++ [Open_rb path_to_file]) _) as [r|e]; cbn [log].
  - destruct (http_status_code r) as [c|e]; cbn [log].
    + destruct (eq_int c 200).
      * destruct (cid_header r) as [v|e]; [now rewrite <- app_assoc|].
        destruct (is_Exception e); now rewrite <- app_assoc.
      * destruct (handle_error r) as [v|e]; [now rewrite <- app_assoc|].
        destruct (is_Exception e); now rewrite <- app_assoc.
    + destruct (is_Exception e); now rewrite <- app_assoc.
  - destruct (is_Exception e); now rewrite <- app_assoc.
Qed.

Lemma upload_metadata_call
    (data : PyVal) (name bucket : pystr) (st : State)
    (text : pystr) (payload : pybytes) :
  json_dumps py data = Return text ->
  utf8_encode text = Some payload ->
  log (snd (upload_metadata py lower world data name bucket st))
  = log st ++ [S3_put_object (s3 (self st)) (VBytes payload) (lower bucket) name].
Proof.
  intros Hd Hu. unfold upload_metadata, upload_metadata_try, bytes_utf8. unfold_M.
  rewrite Hd, Hu.
  destruct (world _ _) as [r|e]; cbn [log].
  - destruct (http_status_code r) as [c|e]; cbn [log].
    + destruct (eq_int c 200).
      * destruct (cid_header r) as [v|e]; [reflexivity|].
        destruct (is_Exception e); reflexivity.
      * destruct (handle_error r) as [v|e]; [reflexivity|].
        destruct (is_Exception e); reflexivity.
    + destruct (is_Exception e); reflexivity.
  - destruct (is_Exception e); reflexivity.
Qed.

End Uploads.

(* ===================================================================== *)
(** * Runs on sample inputs *)
(* ===================================================================== *)

Lemma list_pinned_objects_response_witness :
  fst (list_pinned_objects (rest_world sample_ok_response) (lit "bucket") sample_client)
  = Return (VList [])
  /\ fst (list_pinned_objects (rest_world sample_http_error) (lit "bucket") sample_client)
     = Return (error_record (VInt 500) (VStr (lit "Internal Server Error"))
                            (VStr (lit "oops"))).
Proof.
  split.
  - apply (proj1 (list_pinned_objects_response
                    (rest_world sample_ok_response) (lit "bucket") sample_client
                    (lit "key:secret:bucket") 200%Z (lit "OK") (lit "[]")
                    (Return (VList [])) eq_refl eq_refl));
      reflexivity.
  - apply (proj2 (list_pinned_objects_response
                    (rest_world sample_http_error) (lit "bucket") sample_client
                    (lit "key:secret:bucket") 500%Z (lit "Internal Server Error")
                    (lit "oops") (Raise (mkExc JSONDecodeError (lit "Expecting value")))
                    eq_refl eq_refl));
      reflexivity.
Defined.

Lemma list_pinned_objects_invalid_json_witness :
  fst (list_pinned_objects (rest_world sample_html_response) (lit "bucket") sample_client)
  = Return (VExc (mkExc JSONDecodeError (lit "Expecting value"))).
Proof.
  apply (list_pinned_objects_invalid_json
           (rest_world sample_html_response) (lit "bucket") sample_client
           (lit "key:secret:bucket") 200%Z (lit "OK") (lit "<html></html>")
           (mkExc JSONDecodeError (lit "Expecting value")));
    reflexivity.
Defined.

Lemma list_pinned_objects_request_witness :
  log (snd (list_pinned_objects silent_world (lit "bucket") sample_client))
  = [Requests_get
       (lit "https://api.filebase.io/v1/ipfs/pins")
       (VDict [(VStr (lit "Authorization"),
                VStr (lit "Bearer a2V5OnNlY3JldDpidWNrZXQ="));
               (VStr (lit "Content-Type"), VStr (lit "application/json"))])].
Proof.
  apply (list_pinned_objects_request silent_world (lit "bucket") sample_client
           (lit "key:secret:bucket")).
  reflexivity.
Defined.

(** C6, as stated, fails: for a bucket name that holds a lone surrogate
    the credentials text has no UTF-8 encoding; the operation raises
    [UnicodeEncodeError] and makes no request. *)
Lemma list_pinned_objects_surrogate_no_request :
  utf8_encode (token_text (lit "key") (lit "secret") [0xD800]) = None
  /\ list_pinned_objects silent_world [0xD800] sample_client
     = (Raise (mkExc UnicodeEncodeError (lit "surrogates not allowed")), sample_client)
  /\ log (snd (list_pinned_objects silent_world [0xD800] sample_client)) = [].
Proof. repeat split. Qed.

Lemma caught_exceptions_are_returned_witness :
  run_op sample_py ascii_lower missing_file_world
         (Upload_object (lit "/dir/to/file/test.png") (lit "testpng") (lit "bucketname"))
         sample_client
  = (Return (VExc (mkExc FileNotFoundError (lit "/dir/to/file/test.png"))),
     {| self := self sample_client; log := [Open_rb (lit "/dir/to/file/test.png")] |}).
Proof.
  apply (proj1 (caught_exceptions_are_returned
                  sample_py ascii_lower missing_file_world
                  (Upload_object (lit "/dir/to/file/test.png") (lit "testpng")
                                 (lit "bucketname"))
                  sample_client
                  (upload_object_try ascii_lower missing_file_world
                     (lit "/dir/to/file/test.png") (lit "testpng") (lit "bucketname"))
                  eq_refl));
    reflexivity.
Defined.

(** C1, as stated, fails: an exception that does not derive from
    [Exception], such as the [KeyboardInterrupt] of a user who interrupts
    the backend call, passes through [except Exception] and leaves the
    operation; and [list_pinned_objects] derives its token before its
    [try], so the [UnicodeEncodeError] of a bucket name with a lone
    surrogate leaves it as well. *)
Lemma exceptions_that_propagate :
  fst (create_bucket ascii_lower interrupted_world (lit "mynewbucket") sample_client)
  = Raise (mkExc KeyboardInterrupt [])
  /\ fst (list_pinned_objects silent_world [0xD800] sample_client)
     = Raise (mkExc UnicodeEncodeError (lit "surrogates not allowed")).
Proof. split; reflexivity. Qed.

Lemma upload_object_result_witness :
  fst (upload_object ascii_lower
         (store_world (s3_response 200 [(VStr (lit "x-amz-meta-cid"), VStr (lit "QmCid"))]))
         (lit "/dir/to/file/test.png") (lit "testpng") (lit "BucketName") sample_client)
  = Return (VStr (lit "QmCid"))
  /\ fst (upload_object ascii_lower (store_world (s3_response 403 []))
            (lit "/dir/to/file/test.png") (lit "testpng") (lit "BucketName") sample_client)
     = Return (VDict [(VStr (lit "status"), VInt 403);
                      (VStr (lit "reason"), VInt 403);
                      (VStr (lit "text"), s3_response 403 [])]).
Proof.
  split.
  - apply (proj1 (upload_object_result ascii_lower
                    (store_world (s3_response 200
                                    [(VStr (lit "x-amz-meta-cid"), VStr (lit "QmCid"))]))
                    (lit "/dir/to/file/test.png") (lit "testpng") (lit "BucketName")
                    sample_client (VFile (lit "/dir/to/file/test.png"))
                    [(VStr (lit "ResponseMetadata"),
                      VDict [(VStr (lit "HTTPStatusCode"), VInt 200);
                             (VStr (lit "HTTPHeaders"),
                              VDict [(VStr (lit "x-amz-meta-cid"),
                                      VStr (lit "QmCid"))])])]
                    [(VStr (lit "HTTPStatusCode"), VInt 200);
                     (VStr (lit "HTTPHeaders"),
                      VDict [(VStr (lit "x-amz-meta-cid"), VStr (lit "QmCid"))])]
                    (VInt 200) eq_refl eq_refl eq_refl eq_refl)
                 [(VStr (lit "x-amz-meta-cid"), VStr (lit "QmCid"))]
                 (VStr (lit "QmCid")));
      reflexivity.
  - apply (proj2 (upload_object_result ascii_lower (store_world (s3_response 403 []))
                    (lit "/dir/to/file/test.png") (lit "testpng") (lit "BucketName")
                    sample_client (VFile (lit "/dir/to/file/test.png"))
                    [(VStr (lit "ResponseMetadata"),
                      VDict [(VStr (lit "HTTPStatusCode"), VInt 403);
                             (VStr (lit "HTTPHeaders"), VDict [])])]
                    [(VStr (lit "HTTPStatusCode"), VInt 403);
                     (VStr (lit "HTTPHeaders"), VDict [])]
                    (VInt 403) eq_refl eq_refl eq_refl eq_refl));
      discriminate.
Defined.

Lemma upload_without_cid_header_witness :
  fst (upload_object ascii_lower (store_world (s3_response 200 []))
         (lit "/dir/to/file/test.png") (lit "testpng") (lit "bucketname") sample_client)
  = Return (VExc (mkExc KeyError (lit "x-amz-meta-cid")))
  /\ fst (upload_metadata sample_py ascii_lower (store_world (s3_response 200 []))
            sample_metadata (lit "mymetadata") (lit "bucketname") sample_client)
     = Return (VExc (mkExc KeyError (lit "x-amz-meta-cid"))).
Proof.
  pose proof (upload_without_cid_header sample_py ascii_lower (store_world (s3_response 200 []))
                (s3_response 200 [])
                (VDict [(VStr (lit "HTTPStatusCode"), VInt 200);
                        (VStr (lit "HTTPHeaders"), VDict [])])
                [] (lit "testpng") (lit "bucketname") sample_client
                eq_refl eq_refl eq_refl eq_refl) as [H1 _].
  pose proof (upload_without_cid_header sample_py ascii_lower (store_world (s3_response 200 []))
                (s3_response 200 [])
                (VDict [(VStr (lit "HTTPStatusCode"), VInt 200);
                        (VStr (lit "HTTPHeaders"), VDict [])])
                [] (lit "mymetadata") (lit "bucketname") sample_client
                eq_refl eq_refl eq_refl eq_refl) as [_ H2].
  split.
  - apply (H1 (lit "/dir/to/file/test.png") (VFile (lit "/dir/to/file/test.png")));
      reflexivity.
  - eapply H2; reflexivity.
Defined.

(** C5 at a bucket name in mixed case: [create_bucket] sends the name in
    lower case, while [list_pinned_objects] builds its token from the name
    as given, which is not the token of the lower-case name. *)
Theorem list_pinned_objects_bucket_as_given :
  log (snd (create_bucket ascii_lower silent_world (lit "MyBucket") sample_client))
  = [S3_create_bucket (s3 (self sample_client)) (lit "mybucket")]
  /\ log (snd (list_pinned_objects silent_world (lit "MyBucket") sample_client))
     = [Requests_get pins_url (bearer_headers (lit "key:secret:MyBucket"))]
  /\ bearer_headers (lit "key:secret:MyBucket")
     = VDict [(VStr (lit "Authorization"),
               VStr (lit "Bearer a2V5OnNlY3JldDpNeUJ1Y2tldA=="));
              (VStr (lit "Content-Type"), VStr (lit "application/json"))]
  /\ bearer_headers (lit "key:secret:MyBucket")
     <> bearer_headers (token_text (lit "key") (lit "secret") (ascii_lower (lit "MyBucket"))).
Proof.
  repeat split. discriminate.
Qed.

(* ===================================================================== *)
(** * Strings written by [json.dumps] are read back by [json.loads] *)
(* ===================================================================== *)

Ltac Zify.zify_post_hook ::= Z.to_euclidean_division_equations.

Lemma land_15 (x : N) : N.land x 15 = x mod 16.
Proof. change 15 with (N.ones 4). now rewrite N.land_ones. Qed.


Lemma lor_shiftl_add (a b k : N) :
  b < 2 ^ k -> N.lor (N.shiftl a k) b = N.shiftl a k + b.
Proof.
  intros H. rewrite N.add_nocarry_lxor, N.lxor_lor; try reflexivity.
  all: apply N.bits_inj; intros i; rewrite N.land_spec, N.bits_0;
    destruct (N.lt_ge_cases i k) as [Hi|Hi];
    [ rewrite N.shiftl_spec_low by assumption; reflexivity
    | replace b with (b mod 2 ^ k) by (now apply N.mod_small);
      rewrite N.mod_pow2_bits_high by assumption; apply andb_false_r ].
Qed.











Ltac bool_facts :=
  repeat match goal with
         | H : (_ =? _) = true |- _ => apply N.eqb_eq in H
         | H : (_ =? _) = false |- _ => apply N.eqb_neq in H
         | H : (_ <? _) = true |- _ => apply N.ltb_lt in H
         | H : (_ <? _) = false |- _ => apply N.ltb_ge in H
         | H : (_ <=? _) = true |- _ => apply N.leb_le in H
         | H : (_ <=? _) = false |- _ => apply N.leb_gt in H
         | H : _ && _ = true |- _ => apply andb_true_iff in H; destruct H
         | H : _ && _ = false |- _ => apply andb_false_iff in H
         | H : negb _ = true |- _ => apply negb_true_iff in H
         end.





(* ===================================================================== *)
(** * Numbers written by [json.dumps] are read back by [json.loads] *)
(* ===================================================================== *)










(** ** Float literals *)













(* ===================================================================== *)
(** * The shape of what [json.dumps] writes *)
(* ===================================================================== *)

(** A value that is serialized was visited with room on the stack. *)
Lemma iterencode_stack (py : Interpreter) (level : nat) (v : PyVal) (t : pystr) :
  iterencode py level v = Return t -> has_stack py level v = true.
Proof.
  destruct v; cbn [iterencode]; destruct (has_stack py level _);
    (reflexivity || discriminate).
Qed.

Lemma iterencode_list (py : Interpreter) (level : nat) (x : PyVal) (l : list PyVal) :
  iterencode py level (VList (x :: l))
  = if has_stack py level (VList (x :: l)) then
      match mapM (iterencode py (S level)) (x :: l) with
      | Raise e => Raise e
      | Return chunks =>
          Return (lit "[" ++ newline_indent (S level)
                  ++ join (item_separator (S level)) chunks
                  ++ newline_indent level ++ lit "]")
      end
    else Raise recursion_error.
Proof. reflexivity. Qed.

Lemma iterencode_tuple (py : Interpreter) (level : nat) (x : PyVal) (l : list PyVal) :
  iterencode py level (VTuple (x :: l))
  = if has_stack py level (VTuple (x :: l)) then
      match mapM (iterencode py (S level)) (x :: l) with
      | Raise e => Raise e
      | Return chunks =>
          Return (lit "[" ++ newline_indent (S level)
                  ++ join (item_separator (S level)) chunks
                  ++ newline_indent level ++ lit "]")
      end
    else Raise recursion_error.
Proof. reflexivity. Qed.

Lemma iterencode_dict (py : Interpreter) (level : nat) (kv : PyVal * PyVal) (d : items) :
  iterencode py level (VDict (kv :: d))
  = if has_stack py level (VDict (kv :: d)) then
      match mapM (encode_item py (S level)) (kv :: d) with
      | Raise e => Raise e
      | Return chunks =>
          Return (lit "{" ++ newline_indent (S level)
                  ++ join (item_separator (S level)) chunks
                  ++ newline_indent level ++ lit "}")
      end
    else Raise recursion_error.
Proof. reflexivity. Qed.

(** Unfolds one step of the encoder in a hypothesis that says it
    returned. *)
Ltac enter He :=
  let Hs := fresh "Hs" in
  pose proof (iterencode_stack _ _ _ _ He) as Hs;
  first [ rewrite iterencode_list in He
        | rewrite iterencode_tuple in He
        | rewrite iterencode_dict in He
        | cbn [iterencode] in He ];
  rewrite Hs in He; clear Hs.

Lemma Return_inj {A} (a b : A) : Return a = Return b -> a = b.
Proof. congruence. Qed.

Lemma int_str_inv (py : Interpreter) (z : Z) (t : pystr) :
  int_str py z = Return t ->
  t = int_repr z /\ over_digit_limit py (int_digits z) = false.
Proof.
  unfold int_str. destruct (over_digit_limit py (int_digits z)); [discriminate|].
  intros H. apply Return_inj in H. now split.
Qed.

Lemma mapM_cons {A B} (f : A -> result B) (x : A) (l : list A) (ys : list B) :
  mapM f (x :: l) = Return ys ->
  exists y ys', ys = y :: ys' /\ f x = Return y /\ mapM f l = Return ys'.
Proof.
  cbn [mapM]. destruct (f x) as [y|e]; [|discriminate].
  destruct (mapM f l) as [ys'|e]; [|discriminate].
  intros H. injection H as <-. eauto.
Qed.


Lemma mapM_Forall {A B} (f : A -> result B) (Q : B -> Prop) (l : list A) (ys : list B) :
  Forall (fun x => forall y, f x = Return y -> Q y) l ->
  mapM f l = Return ys -> Forall Q ys.
Proof.
  intros HF. revert ys. induction HF as [|x l Hx HF IH]; intros ys H.
  - injection H as <-. constructor.
  - apply mapM_cons in H as (y & ys' & -> & Hy & Hys). constructor; auto.
Qed.

Lemma join_cons (sep c : pystr) (cs : list pystr) :
  cs <> [] -> join sep (c :: cs) = c ++ sep ++ join sep cs.
Proof. destruct cs; [contradiction|reflexivity]. Qed.

(** ** White space *)




(** ** The first character of a value *)






(** ** Building the dict back *)





(* ===================================================================== *)
(** * Values written by [json.dumps] are read back by [json.loads] *)
(* ===================================================================== *)

(** ** The scanner, one step at a time *)











(** ** The three readers, by induction on the fuel *)















(* ===================================================================== *)
(** * What [json.dumps] writes is ASCII *)
(* ===================================================================== *)

Lemma is_ascii_app (a b : pystr) : is_ascii (a ++ b) = is_ascii a && is_ascii b.
Proof. apply forallb_app. Qed.

Lemma hexdigit_ascii (x : N) : (hexdigit (N.land x 15) <? 128) = true.
Proof.
  rewrite land_15. unfold hexdigit. apply N.ltb_lt.
  pose proof (N.mod_lt x 16 ltac:(discriminate)).
  destruct (x mod 16 <? 10); lia.
Qed.

Lemma u_escape_ascii (n : N) : is_ascii (u_escape n) = true.
Proof.
  unfold u_escape, hex4. cbn [is_ascii forallb].
  rewrite !hexdigit_ascii. reflexivity.
Qed.

Lemma escape_char_ascii (c : N) : is_ascii (escape_char c) = true.
Proof.
  unfold escape_char.
  repeat match goal with
         | |- context [if ?b then _ else _] =>
             let E := fresh "E" in destruct b eqn:E; try reflexivity
         end.
  - cbn [is_ascii forallb]. bool_facts.
    replace (c <? 128) with true; [reflexivity|].
    symmetry. apply N.ltb_lt. lia.
  - apply u_escape_ascii.
  - cbv zeta. rewrite is_ascii_app, !u_escape_ascii. reflexivity.
Qed.

Lemma escape_body_ascii (s : pystr) : is_ascii (escape_body s) = true.
Proof.
  induction s as [|c s IH]; [reflexivity|].
  unfold escape_body. cbn [flat_map]. rewrite is_ascii_app, escape_char_ascii.
  exact IH.
Qed.

Lemma encode_basestring_ascii_ascii (s : pystr) :
  is_ascii (encode_basestring_ascii s) = true.
Proof.
  unfold encode_basestring_ascii. cbn [is_ascii forallb].
  fold (is_ascii (escape_body s ++ [quote])).
  rewrite is_ascii_app, escape_body_ascii. reflexivity.
Qed.

Lemma uint_chars_ascii (u : Decimal.uint) : is_ascii (uint_chars u) = true.
Proof. induction u; cbn [uint_chars is_ascii forallb]; trivial. Qed.

Lemma int_repr_ascii (z : Z) : is_ascii (int_repr z) = true.
Proof.
  destruct z; cbn [int_repr]; [reflexivity|apply uint_chars_ascii|].
  cbn [is_ascii forallb]. apply uint_chars_ascii.
Qed.

Lemma zeros_ascii (n : nat) : is_ascii (repeat 48 n) = true.
Proof. induction n as [|n IH]; [reflexivity|exact IH]. Qed.

Lemma digits_text_ascii (d : Digits) : is_ascii (digits_text d) = true.
Proof.
  unfold digits_text. now rewrite is_ascii_app, zeros_ascii, uint_chars_ascii.
Qed.

Lemma exponent_text_ascii (e : Exponent) : is_ascii (exponent_text e) = true.
Proof.
  destruct e as [[|] [[|]|] d]; unfold exponent_text;
    cbn [exp_upper exp_sign exp_digits sign_text app is_ascii forallb];
    apply digits_text_ascii.
Qed.

Lemma literal_text_ascii (l : FloatLiteral) : is_ascii (literal_text l) = true.
Proof.
  assert (Ht : is_ascii (tail_text (lit_tail l)) = true).
  { destruct (lit_tail l) as [frac [e|]|e]; cbn [tail_text].
    - cbn [is_ascii forallb]. fold (is_ascii (digits_text frac ++ exponent_text e)).
      now rewrite is_ascii_app, digits_text_ascii, exponent_text_ascii.
    - cbn [is_ascii forallb]. fold (is_ascii (digits_text frac ++ [])).
      now rewrite is_ascii_app, digits_text_ascii.
    - apply exponent_text_ascii. }
  unfold literal_text. rewrite !is_ascii_app, uint_chars_ascii, Ht.
  now destruct (lit_negative l).
Qed.

Lemma floatstr_ascii (py : Interpreter) (x : spec_float) :
  is_ascii (floatstr py x) = true.
Proof.
  destruct x as [s|[|]| |s m e]; cbn [floatstr];
    try reflexivity; apply literal_text_ascii.
Qed.

Lemma spaces_ascii (n : nat) : is_ascii (repeat 32 n) = true.
Proof. induction n as [|n IH]; [reflexivity|exact IH]. Qed.

Lemma newline_indent_ascii (level : nat) : is_ascii (newline_indent level) = true.
Proof.
  unfold newline_indent. cbn [is_ascii forallb]. apply spaces_ascii.
Qed.

Lemma item_separator_ascii (level : nat) : is_ascii (item_separator level) = true.
Proof.
  unfold item_separator. rewrite is_ascii_app, newline_indent_ascii. reflexivity.
Qed.

Lemma join_ascii (sep : pystr) (chunks : list pystr) :
  is_ascii sep = true -> Forall (fun c => is_ascii c = true) chunks ->
  is_ascii (join sep chunks) = true.
Proof.
  intros Hs HF. induction HF as [|c cs Hc HF IH]; [reflexivity|].
  destruct cs as [|c' cs]; [exact Hc|].
  rewrite join_cons by discriminate.
  rewrite !is_ascii_app, Hc, Hs, IH. reflexivity.
Qed.

Lemma container_ascii (opening closing sep : pystr) (level : nat) (chunks : list pystr) :
  is_ascii opening = true -> is_ascii closing = true -> is_ascii sep = true ->
  Forall (fun c => is_ascii c = true) chunks ->
  is_ascii (opening ++ newline_indent (S level) ++ join sep chunks
            ++ newline_indent level ++ closing) = true.
Proof.
  intros Ho Hc Hs HF.
  rewrite !is_ascii_app, Ho, Hc, !newline_indent_ascii, join_ascii by assumption.
  reflexivity.
Qed.

Lemma members_ascii (py : Interpreter) (level : nat) (l : list PyVal)
      (chunks : list pystr) :
  Forall (fun v => forall level t, iterencode py level v = Return t ->
                                   is_ascii t = true) l ->
  mapM (iterencode py (S level)) l = Return chunks ->
  is_ascii (lit "[" ++ newline_indent (S level)
            ++ join (item_separator (S level)) chunks
            ++ newline_indent level ++ lit "]") = true.
Proof.
  intros HF Hm.
  apply container_ascii; try reflexivity; [apply item_separator_ascii|].
  apply (mapM_Forall (iterencode py (S level)) _ l chunks); [|exact Hm].
  eapply Forall_impl; [|exact HF]. intros v Hv y Hy. exact (Hv _ _ Hy).
Qed.

Lemma key_text_ascii_literal (py : Interpreter) (level : nat) (k : PyVal) (kt : pystr) :
  key_text py level k = Return kt ->
  is_ascii (encode_basestring_ascii kt) = true.
Proof. intros _. apply encode_basestring_ascii_ascii. Qed.

(** Whatever the value, the text [json.dumps] gives is ASCII. *)
Lemma iterencode_ascii (py : Interpreter) (v : PyVal) :
  forall level t, iterencode py level v = Return t -> is_ascii t = true.
Proof.
  induction v as [| b | z | x | s | b | l IH | l IH | d IH | p | c r t0 j | e]
    using PyVal_nested_ind; intros level t He;
    try (destruct l as [|y l]); try (destruct d as [|kv d]);
    enter He; try discriminate.
  - apply Return_inj in He. now subst t.
  - destruct b; apply Return_inj in He; now subst t.
  - apply int_str_inv in He as [-> _]. apply int_repr_ascii.
  - apply Return_inj in He. subst t. apply floatstr_ascii.
  - apply Return_inj in He. subst t. apply encode_basestring_ascii_ascii.
  - apply Return_inj in He. now subst t.
  - destruct (mapM (iterencode py (S level)) (y :: l)) as [chunks|] eqn:Hm;
      [|discriminate].
    apply Return_inj in He. subst t. now apply (members_ascii py level (y :: l)).
  - apply Return_inj in He. now subst t.
  - destruct (mapM (iterencode py (S level)) (y :: l)) as [chunks|] eqn:Hm;
      [|discriminate].
    apply Return_inj in He. subst t. now apply (members_ascii py level (y :: l)).
  - apply Return_inj in He. now subst t.
  - destruct (mapM (encode_item py (S level)) (kv :: d)) as [chunks|] eqn:Hm;
      [|discriminate].
    apply Return_inj in He. subst t.
    apply container_ascii; try reflexivity; [apply item_separator_ascii|].
    apply (mapM_Forall (encode_item py (S level)) _ (kv :: d) chunks); [|exact Hm].
    eapply Forall_impl; [|exact IH].
    intros [k v] Hv y Hy. unfold encode_item in Hy. cbn [fst snd] in *.
    destruct (key_text py (S level) k) as [kt|]; [|discriminate].
    destruct (iterencode py (S level) v) as [vt|] eqn:Ev; [|discriminate].
    apply Return_inj in Hy. subst y.
    rewrite !is_ascii_app, encode_basestring_ascii_ascii, (Hv _ _ Ev).
    reflexivity.
Qed.

(* ===================================================================== *)
(** * The layout: four spaces for each level *)
(* ===================================================================== *)



















(* ===================================================================== *)
(** * The round trip *)
(* ===================================================================== *)




(** The payload of [upload_metadata]: the text itself, octet for code
    point, which decodes to the text again. *)
Lemma json_dumps_payload (py : Interpreter) (v : PyVal) (t : pystr) :
  json_dumps py v = Return t ->
  utf8_encode t = Some t /\ utf8_decode_surrogatepass t = Some t.
Proof.
  intros Hd. pose proof (iterencode_ascii py v 0 t Hd) as Ha.
  split; [now apply utf8_encode_ascii|now apply utf8_decode_surrogatepass_ascii].
Qed.

Section Metadata.

Variable py : Interpreter.
Variable lower : pystr -> pystr.
Variable world : World.


End Metadata.



(* ===================================================================== *)
(** * What the operations on the object store return *)
(* ===================================================================== *)

Lemma getitem_raises (v : PyVal) (k : string) (e : Exc) :
  getitem v k = Raise e -> is_Exception e = true.
Proof.
  destruct v; cbn [getitem]; try (intros H; injection H as <-; reflexivity).
  destruct (dict_get d (lit k)); [discriminate|].
  intros H. injection H as <-. reflexivity.
Qed.

Lemma http_status_code_raises (response : PyVal) (e : Exc) :
  http_status_code response = Raise e -> is_Exception e = true.
Proof.
  unfold http_status_code, rbind.
  destruct (getitem response "ResponseMetadata") as [m|e0] eqn:E.
  - apply getitem_raises.
  - intros H. injection H as <-. now apply getitem_raises in E.
Qed.

Section StoreResults.

Variable py : Interpreter.
Variable lower : pystr -> pystr.
Variable world : World.

(** X1.  When the store answers [create_bucket] with a response that
    carries a status code: on 200 the operation returns the whole
    response, on any other code (the float 200.0 is equal to 200) the
    error record. *)
Theorem create_bucket_result
    (name : pystr) (st : State) (response code : PyVal) :
  world (log st) (S3_create_bucket (s3 (self st)) (lower name)) = Return response ->
  http_status_code response = Return code ->
  (code = VInt 200 ->
     fst (create_bucket lower world name st) = Return response)
  /\
  (code <> VInt 200 -> code <> VFloat float_200 ->
     fst (create_bucket lower world name st)
     = Return (error_record code code response)).
Proof.
  intros Hw Hc. unfold create_bucket, create_bucket_try. unfold_M.
  rewrite Hw, Hc. split.
  - intros ->. reflexivity.
  - intros Hne Hnf. rewrite (eq_int_not_200 _ Hne Hnf), (handle_error_dict _ _ Hc).
    reflexivity.
Qed.

(** X2.  The same for [delete_object]: the whole response on 200, the
    error record otherwise. *)
Theorem delete_object_result
    (name bucket : pystr) (st : State) (response code : PyVal) :
  world (log st) (S3_delete_object (s3 (self st)) (lower bucket) name)
  = Return response ->
  http_status_code response = Return code ->
  (code = VInt 200 ->
     fst (delete_object lower world name bucket st) = Return response)
  /\
  (code <> VInt 200 -> code <> VFloat float_200 ->
     fst (delete_object lower world name bucket st)
     = Return (error_record code code response)).
Proof.
  intros Hw Hc. unfold delete_object, delete_object_try. unfold_M.
  rewrite Hw, Hc. split.
  - intros ->. reflexivity.
  - intros Hne Hnf. rewrite (eq_int_not_200 _ Hne Hnf), (handle_error_dict _ _ Hc).
    reflexivity.
Qed.

(** X3.  [list_buckets]: on status 200 it returns the value under
    ['Buckets']; on status 200 without that key it returns the
    [KeyError] of the lookup; on any other status the error record. *)
Theorem list_buckets_result (st : State) (response code : PyVal) :
  world (log st) (S3_list_buckets (s3 (self st))) = Return response ->
  http_status_code response = Return code ->
  (forall buckets,
      code = VInt 200 -> getitem response "Buckets" = Return buckets ->
      fst (list_buckets world st) = Return buckets)
  /\
  (forall d,
      code = VInt 200 -> response = VDict d ->
      dict_get d (lit "Buckets") = None ->
      fst (list_buckets world st) = Return (VExc (mkExc KeyError (lit "Buckets"))))
  /\
  (code <> VInt 200 -> code <> VFloat float_200 ->
     fst (list_buckets world st) = Return (error_record code code response)).
Proof.
  intros Hw Hc. unfold list_buckets, list_buckets_try. unfold_M.
  rewrite Hw, Hc. repeat split.
  - intros buckets -> Hb. cbn [eq_int Z.eqb Pos.eqb]. rewrite Hb. reflexivity.
  - intros d -> -> Hd. cbn [eq_int Z.eqb Pos.eqb getitem]. rewrite Hd. reflexivity.
  - intros Hne Hnf. rewrite (eq_int_not_200 _ Hne Hnf), (handle_error_dict _ _ Hc).
    reflexivity.
Qed.

(** X4.  [upload_metadata] on data that [json.dumps] serializes to
    [text]: the one call it makes puts the octets of [text], which are
    the code points of [text], under the key as given in the bucket in
    lower case.  When the store answers with a dict whose entry
    [ResponseMetadata] is a dict with the entry [HTTPStatusCode]: on
    status 200, with [HTTPHeaders] a dict that has the entry
    [x-amz-meta-cid], the operation returns the value of that entry; on a
    status that is not 200 it returns the error record. *)
Theorem upload_metadata_result
    (data : PyVal) (name bucket : pystr) (st : State) (text : pystr) :
  json_dumps py data = Return text ->
  utf8_encode text = Some text
  /\ log (snd (upload_metadata py lower world data name bucket st))
     = log st ++ [S3_put_object (s3 (self st)) (VBytes text) (lower bucket) name]
  /\ (forall response metadata code,
        world (log st)
              (S3_put_object (s3 (self st)) (VBytes text) (lower bucket) name)
        = Return (VDict response) ->
        dict_get response (lit "ResponseMetadata") = Some (VDict metadata) ->
        dict_get metadata (lit "HTTPStatusCode") = Some code ->
        (forall headers cid,
            code = VInt 200 ->
            dict_get metadata (lit "HTTPHeaders") = Some (VDict headers) ->
            dict_get headers (lit "x-amz-meta-cid") = Some cid ->
            fst (upload_metadata py lower world data name bucket st) = Return cid)
        /\
        (code <> VInt 200 -> code <> VFloat float_200 ->
         fst (upload_metadata py lower world data name bucket st)
         = Return (VDict [(VStr (lit "status"), code);
                          (VStr (lit "reason"), code);
                          (VStr (lit "text"), VDict response)]))).
Proof.
  intros Hd.
  destruct (json_dumps_payload py data text Hd) as [He _].
  split; [exact He|]. split.
  - now apply upload_metadata_call with (text := text).
  - intros response metadata code Hw Hm Hcode.
    assert (Hsc : http_status_code (VDict response) = Return code).
    { unfold http_status_code, rbind.
      rewrite (getitem_found _ "ResponseMetadata" _ Hm).
      now apply getitem_found. }
    rewrite (upload_metadata_answered py lower world _ _ _ _ _ _ _ _ Hd He Hw Hsc).
    split.
    + intros headers cid -> Hh Hcid. cbn [eq_int Z.eqb Pos.eqb].
      unfold cid_header, rbind.
      rewrite (getitem_found _ "ResponseMetadata" _ Hm).
      rewrite (getitem_found _ "HTTPHeaders" _ Hh).
      rewrite (getitem_found _ "x-amz-meta-cid" _ Hcid). reflexivity.
    + intros Hne Hnf. rewrite (eq_int_not_200 _ Hne Hnf). reflexivity.
Qed.

(** X5.  [upload_object] when something fails with an exception that
    derives from [Exception]: if [open] raises, the exception is returned
    and the store is never called; if the put raises, the exception is
    returned after the two calls. *)
Theorem upload_object_failures
    (path_to_file name bucket : pystr) (st : State) (error : Exc) :
  is_Exception error = true ->
  (world (log st) (Open_rb path_to_file) = Raise error ->
   upload_object lower world path_to_file name bucket st
   = (Return (VExc error),
      {| self := self st; log := log st ++ [Open_rb path_to_file] |}))
  /\
  (forall file,
      world (log st) (Open_rb path_to_file) = Return file ->
      world (log st ++ [Open_rb path_to_file])
            (S3_put_object (s3 (self st)) file (lower bucket) name) = Raise error ->
      upload_object lower world path_to_file name bucket st
      = (Return (VExc error),
         {| self := self st;
            log := (log st ++ [Open_rb path_to_file])
                   ++ [S3_put_object (s3 (self st)) file (lower bucket) name] |})).
Proof.
  intros He. unfold upload_object, upload_object_try. unfold_M. split.
  - intros Ho. rewrite Ho, He. reflexivity.
  - intros file Ho Hp. rewrite Ho. cbn [log self]. rewrite Hp, He. reflexivity.
Qed.

(** X6.  When the store's answer has no readable status code, so that
    the lookup [response['ResponseMetadata']['HTTPStatusCode']] raises,
    each of the five operations on the store returns the exception of
    that lookup. *)
Theorem unreadable_status_is_returned
    (st : State) (response : PyVal) (error : Exc) :
  http_status_code response = Raise error ->
  (forall name,
      world (log st) (S3_create_bucket (s3 (self st)) (lower name)) = Return response ->
      fst (create_bucket lower world name st) = Return (VExc error))
  /\
  (world (log st) (S3_list_buckets (s3 (self st))) = Return response ->
   fst (list_buckets world st) = Return (VExc error))
  /\
  (forall name bucket,
      world (log st) (S3_delete_object (s3 (self st)) (lower bucket) name)
      = Return response ->
      fst (delete_object lower world name bucket st) = Return (VExc error))
  /\
  (forall path_to_file name bucket file,
      world (log st) (Open_rb path_to_file) = Return file ->
      world (log st ++ [Open_rb path_to_file])
            (S3_put_object (s3 (self st)) file (lower bucket) name) = Return response ->
      fst (upload_object lower world path_to_file name bucket st)
      = Return (VExc error))
  /\
  (forall data name bucket text,
      json_dumps py data = Return text ->
      world (log st) (S3_put_object (s3 (self st)) (VBytes text) (lower bucket) name)
      = Return response ->
      fst (upload_metadata py lower world data name bucket st) = Return (VExc error)).
Proof.
  intros Hc. pose proof (http_status_code_raises _ _ Hc) as He.
  repeat split.
  - intros name Hw. unfold create_bucket, create_bucket_try. unfold_M.
    rewrite Hw, Hc, He. reflexivity.
  - intros Hw. unfold list_buckets, list_buckets_try. unfold_M.
    rewrite Hw, Hc, He. reflexivity.
  - intros name bucket Hw. unfold delete_object, delete_object_try. unfold_M.
    rewrite Hw, Hc, He. reflexivity.
  - intros path_to_file name bucket file Ho Hw.
    unfold upload_object, upload_object_try. unfold_M.
    rewrite Ho. cbn [log self]. rewrite Hw, Hc, He. reflexivity.
  - intros data name bucket text Hd Hw.
    destruct (json_dumps_payload py data text Hd) as [Hu _].
    unfold upload_metadata, upload_metadata_try, bytes_utf8. unfold_M.
    rewrite Hd, Hu, Hw, Hc, He. reflexivity.
Qed.

End StoreResults.

(** X7.  Where the lookup of the status code fails, and with it
    [handle_error], which has no [try] of its own: a dict without
    ['ResponseMetadata'] or whose metadata has no ['HTTPStatusCode']
    raises the [KeyError] of the missing key; a value that is neither a
    dict nor an HTTP response object raises [AttributeError]. *)
Theorem handle_error_raises (response : PyVal) :
  (forall d,
      response = VDict d -> dict_get d (lit "ResponseMetadata") = None ->
      http_status_code response = Raise (mkExc KeyError (lit "ResponseMetadata"))
      /\ handle_error response = Raise (mkExc KeyError (lit "ResponseMetadata")))
  /\
  (forall d m,
      response = VDict d ->
      dict_get d (lit "ResponseMetadata") = Some (VDict m) ->
      dict_get m (lit "HTTPStatusCode") = None ->
      http_status_code response = Raise (mkExc KeyError (lit "HTTPStatusCode"))
      /\ handle_error response = Raise (mkExc KeyError (lit "HTTPStatusCode")))
  /\
  (isinstance_dict response = false ->
   (forall c r t j, response <> VResponse c r t j) ->
   handle_error response = Raise (no_attribute "status_code")).
Proof.
  split; [|split].
  - intros d -> Hm. split.
    + unfold http_status_code, rbind. cbn [getitem]. now rewrite Hm.
    + unfold handle_error, rbind. cbn [isinstance_dict getitem]. now rewrite Hm.
  - intros d m -> Hm Hc. split.
    + unfold http_status_code, rbind. cbn [getitem].
      rewrite Hm. cbn [getitem]. now rewrite Hc.
    + unfold handle_error, rbind. cbn [isinstance_dict getitem].
      rewrite Hm. cbn [getitem]. now rewrite Hc.
  - intros Hd Hr. unfold handle_error. rewrite Hd.
    destruct response; try reflexivity.
    exfalso. eapply Hr. reflexivity.
Qed.

(* ===================================================================== *)
(** * The calls the operations make *)
(* ===================================================================== *)

(** What [json.dumps] raises is a [TypeError], the [ValueError] of an
    integer with too many digits, or a [RecursionError]. *)
Lemma mapM_raises {A B} (f : A -> result B) (P : Exc -> Prop) (l : list A) (e : Exc) :
  Forall (fun x => forall e, f x = Raise e -> P e) l ->
  mapM f l = Raise e -> P e.
Proof.
  intros HF. induction HF as [|x l Hx HF IH]; [discriminate|].
  cbn [mapM]. destruct (f x) as [y|e0] eqn:E.
  - destruct (mapM f l) as [ys|e1]; [discriminate|].
    intros H. injection H as <-. now apply IH.
  - intros H. injection H as <-. now apply Hx.
Qed.

Lemma dumps_error_Exception (e : Exc) : dumps_error e -> is_Exception e = true.
Proof. unfold is_Exception. intros [H|[H|H]]; now rewrite H. Qed.

Lemma int_str_raises (py : Interpreter) (z : Z) (e : Exc) :
  int_str py z = Raise e -> dumps_error e.
Proof.
  unfold int_str. destruct (over_digit_limit py (int_digits z)); [|discriminate].
  intros H. injection H as <-. right. left. reflexivity.
Qed.

Lemma key_text_raises (py : Interpreter) (level : nat) (k : PyVal) (e : Exc) :
  key_text py level k = Raise e -> dumps_error e.
Proof.
  unfold key_text. destruct (key_has_stack py level k);
    [|intros H; injection H as <-; right; right; reflexivity].
  destruct k as [| [|] | z | | | | | | | | |];
    try discriminate; try (intros H; injection H as <-; left; reflexivity).
  apply int_str_raises.
Qed.

(** Unfolds one step of the encoder in a hypothesis that says it raised,
    and settles the case of a stack without room. *)
Ltac enter_raised He :=
  first [ rewrite iterencode_list in He
        | rewrite iterencode_tuple in He
        | rewrite iterencode_dict in He
        | cbn [iterencode] in He ];
  match type of He with
  | context [has_stack ?p ?l ?v] =>
      destruct (has_stack p l v);
      [|injection He as <-; right; right; reflexivity]
  end.

Lemma members_raise (py : Interpreter) (level : nat) (l : list PyVal) (e : Exc) :
  Forall (fun v => forall level e, iterencode py level v = Raise e -> dumps_error e) l ->
  mapM (iterencode py (S level)) l = Raise e -> dumps_error e.
Proof.
  intros IH Hm.
  apply (mapM_raises (iterencode py (S level)) dumps_error l e); [|exact Hm].
  eapply Forall_impl; [|exact IH]. intros v Hv e0 Hx. exact (Hv _ _ Hx).
Qed.

Lemma iterencode_raises (py : Interpreter) (v : PyVal) :
  forall level e, iterencode py level v = Raise e -> dumps_error e.
Proof.
  induction v as [| b | z | x | s | b | l IH | l IH | d IH | p | c r t0 j | e0]
    using PyVal_nested_ind; intros level e He;
    try (destruct l as [|y l]); try (destruct d as [|kv d]);
    enter_raised He;
    try (destruct b; discriminate); try discriminate;
    try (injection He as <-; left; reflexivity).
  - now apply int_str_raises in He.
  - destruct (mapM (iterencode py (S level)) (y :: l)) as [chunks|e1] eqn:Hm;
      [discriminate|].
    injection He as <-. now apply (members_raise py level (y :: l)).
  - destruct (mapM (iterencode py (S level)) (y :: l)) as [chunks|e1] eqn:Hm;
      [discriminate|].
    injection He as <-. now apply (members_raise py level (y :: l)).
  - destruct (mapM (encode_item py (S level)) (kv :: d)) as [chunks|e1] eqn:Hm;
      [discriminate|].
    injection He as <-.
    apply (mapM_raises (encode_item py (S level)) dumps_error (kv :: d) e1);
      [|exact Hm].
    eapply Forall_impl; [|exact IH]. intros [k v] Hv e Hx.
    unfold encode_item in Hx. cbn [fst snd] in *.
    destruct (key_text py (S level) k) as [kt|e2] eqn:Ek.
    + destruct (iterencode py (S level) v) as [vt|e3] eqn:Ev; [discriminate|].
      injection Hx as <-. exact (Hv _ _ Ev).
    + injection Hx as <-. now apply key_text_raises in Ek.
Qed.

Lemma json_dumps_raises (py : Interpreter) (data : PyVal) (e : Exc) :
  json_dumps py data = Raise e -> is_Exception e = true.
Proof.
  intros H. apply iterencode_raises in H. now apply dumps_error_Exception.
Qed.

Section Calls.

Variable py : Interpreter.
Variable lower : pystr -> pystr.
Variable world : World.

(** Whatever the outside answers, an operation only adds to the log, and
    what it adds is [op_calls]. *)
Lemma run_op_calls (op : Op) (st : State) :
  log (snd (run_op py lower world op st)) = log st ++ op_calls py lower world op st.
Proof.
  destruct op; cbn [run_op op_calls].
  - apply create_bucket_call.
  - destruct (utf8_encode _) as [tb|] eqn:E.
    + now apply list_pinned_objects_request.
    + rewrite (pins_headers_raises world _ _ E). cbn [snd]. now rewrite app_nil_r.
  - unfold list_buckets, list_buckets_try. unfold_M.
    destruct (world _ _) as [r|e]; cbn [log].
    + destruct (http_status_code r) as [c|e]; cbn [log].
      * destruct (eq_int c 200).
        -- destruct (getitem r "Buckets") as [v|e]; [reflexivity|].
           destruct (is_Exception e); reflexivity.
        -- destruct (handle_error r) as [v|e]; [reflexivity|].
           destruct (is_Exception e); reflexivity.
      * destruct (is_Exception e); reflexivity.
    + destruct (is_Exception e); reflexivity.
  - destruct (world (log st) (Open_rb path_to_file)) as [file|e] eqn:Ho.
    + now apply upload_object_call.
    + unfold upload_object, upload_object_try. unfold_M. rewrite Ho.
      destruct (is_Exception e); reflexivity.
  - apply delete_object_call.
  - destruct (json_dumps py data) as [text|e] eqn:Hd.
    + destruct (json_dumps_payload py data text Hd) as [Hu _].
      now apply upload_metadata_call with (text := text).
    + unfold upload_metadata, upload_metadata_try. unfold_M. rewrite Hd.
      rewrite (json_dumps_raises _ _ _ Hd). cbn [log snd]. now rewrite app_nil_r.
Qed.

Lemma op_calls_length (op : Op) (st : State) :
  (length (op_calls py lower world op st) <= 2)%nat.
Proof.
  destruct op; cbn [op_calls]; try (cbn [length]; lia).
  - destruct (utf8_encode _); cbn [length]; lia.
  - destruct (world _ _); cbn [length]; lia.
  - destruct (json_dumps _); cbn [length]; lia.
Qed.

Lemma op_calls_client (op : Op) (st : State) :
  through_client (s3 (self st)) (op_calls py lower world op st).
Proof.
  unfold through_client.
  destruct op; cbn [op_calls];
    repeat match goal with
           | |- context [match ?x with _ => _ end] => destruct x
           end;
    repeat constructor; cbn [call_client]; intros h H;
    try discriminate; now injection H as <-.
Qed.

(** X8.  Whatever the outside answers, a run of operations keeps the
    log it started from and adds to it the calls of [ops_calls], at most
    two for each operation: [upload_object] does not call the store when
    the file does not open, [upload_metadata] makes no call when the data
    does not serialize, and [list_pinned_objects] makes no call when the
    token cannot be built. *)
Theorem run_ops_log (ops : list Op) (st : State) :
  log (run_ops py lower world ops st) = log st ++ ops_calls py lower world ops st
  /\ (length (ops_calls py lower world ops st) <= 2 * length ops)%nat.
Proof.
  revert st. induction ops as [|op ops IH]; intros st; cbn [run_ops ops_calls].
  - split; [now rewrite app_nil_r|cbn; lia].
  - destruct (IH (snd (run_op py lower world op st))) as [Hl Hn]. split.
    + rewrite Hl, run_op_calls, app_assoc. reflexivity.
    + rewrite length_app. pose proof (op_calls_length op st).
      cbn [length]. lia.
Qed.

(** X9.  On a client built by [__init__], whatever operations are run,
    every call to the object store goes through the handle bound at
    construction: the fixed endpoint and the two credentials. *)
Theorem store_calls_use_the_handle
    (ops : list Op) (filebase_api_key filebase_secret_api_key : pystr) :
  through_client
    {| endpoint_url := AWS_ENDPOINT;
       aws_access_key_id := filebase_api_key;
       aws_secret_access_key := filebase_secret_api_key |}
    (log (run_ops py lower world ops
            {| self := Filebase__init__ filebase_api_key filebase_secret_api_key;
               log := [] |})).
Proof.
  set (st0 := {| self := Filebase__init__ filebase_api_key filebase_secret_api_key;
                 log := [] |}).
  change (mkS3Client AWS_ENDPOINT filebase_api_key filebase_secret_api_key)
    with (s3 (self st0)).
  assert (H0 : through_client (s3 (self st0)) (log st0)) by constructor.
  revert H0. generalize st0. clear st0.
  induction ops as [|op ops IH]; intros st H0; cbn [run_ops]; [exact H0|].
  pose proof (run_op_keeps_self py lower world op st) as Hs.
  specialize (IH (snd (run_op py lower world op st))).
  rewrite Hs in IH. apply IH.
  rewrite run_op_calls. unfold through_client in *.
  apply Forall_app. split; [exact H0|apply op_calls_client].
Qed.

(** The only exception deriving from [Exception] that leaves an
    operation is the [UnicodeEncodeError] of [list_pinned_objects] on a
    token that has no UTF-8 encoding; it is raised before anything is
    logged. *)
Lemma run_op_raises (op : Op) (st st' : State) (e : Exc) :
  run_op py lower world op st = (Raise e, st') ->
  is_Exception e = true ->
  exists bucket,
    op = List_pinned_objects bucket
    /\ utf8_encode (token_text (filebase_api_key (self st))
                               (filebase_secret_api_key (self st)) bucket) = None
    /\ exc_class e = UnicodeEncodeError
    /\ st' = st.
Proof.
  intros Hr He.
  destruct op; cbn [run_op] in Hr;
    try (apply try_except_propagates in Hr; congruence).
  exists bucket. split; [reflexivity|].
  destruct (utf8_encode (token_text (filebase_api_key (self st))
                                    (filebase_secret_api_key (self st)) bucket))
    as [tb|] eqn:E.
  - exfalso. unfold list_pinned_objects, bind in Hr.
    rewrite (pins_headers_ok _ _ _ E) in Hr.
    apply try_except_propagates in Hr. congruence.
  - rewrite (pins_headers_raises world _ _ E) in Hr.
    injection Hr as <- <-. repeat split.
Qed.

(** X11.  The four operations that name a bucket to the object store
    do not tell apart two names with the same lower-case form. *)
Theorem bucket_names_fold_case (a b : pystr) (st : State) :
  lower a = lower b ->
  create_bucket lower world a st = create_bucket lower world b st
  /\ (forall name,
         delete_object lower world name a st = delete_object lower world name b st)
  /\ (forall path_to_file name,
         upload_object lower world path_to_file name a st
         = upload_object lower world path_to_file name b st)
  /\ (forall data name,
         upload_metadata py lower world data name a st
         = upload_metadata py lower world data name b st).
Proof.
  intros H.
  unfold create_bucket, create_bucket_try, delete_object, delete_object_try,
    upload_object, upload_object_try, upload_metadata, upload_metadata_try.
  rewrite H. repeat split.
Qed.

End Calls.


(* ===================================================================== *)
(** * UTF-8: what is encoded decodes to the same text *)
(* ===================================================================== *)

Lemma land_mask (x n : N) : N.land x (N.ones n) = x mod 2 ^ n.
Proof. apply N.land_ones. Qed.

Lemma lor_high (k n x : N) : x < 2 ^ n -> N.lor (N.shiftl k n) x = k * 2 ^ n + x.
Proof.
  intros H. rewrite lor_shiftl_add by exact H. now rewrite N.shiftl_mul_pow2.
Qed.

Lemma Some_inj {A} (a b : A) : Some a = Some b -> a = b.
Proof. congruence. Qed.

(** The octets of a code point, in arithmetic. *)
Lemma utf8_encode_char_arith (c : N) (b : pybytes) :
  utf8_encode_char c = Some b ->
  (c < 128 /\ b = [c])
  \/ (128 <= c < 2048 /\ b = [192 + c / 64; 128 + c mod 64])
  \/ (2048 <= c < 65536 /\ is_surrogate c = false
      /\ b = [224 + c / 4096; 128 + (c / 64) mod 64; 128 + c mod 64])
  \/ (65536 <= c <= 1114111
      /\ b = [240 + c / 262144; 128 + (c / 4096) mod 64;
              128 + (c / 64) mod 64; 128 + c mod 64]).
Proof.
  unfold utf8_encode_char.
  change 0x80 with 128. change 0x800 with 2048. change 0x10000 with 65536.
  change 0x10FFFF with 1114111.
  assert (Hc : forall x, N.lor 128 (N.land x 0x3F) = 128 + x mod 64).
  { intros x. change 0x3F with (N.ones 6). rewrite land_mask.
    change 128 with (N.shiftl 2 6) at 1. rewrite lor_high; [reflexivity|].
    apply N.mod_lt. discriminate. }
  destruct (c <? 128) eqn:E1; bool_facts.
  { intros H. apply Some_inj in H. subst b. left. split; [lia|reflexivity]. }
  destruct (c <? 2048) eqn:E2; bool_facts.
  { intros H. apply Some_inj in H. subst b. right. left. split; [lia|].
    rewrite Hc, N.shiftr_div_pow2. change (2 ^ 6) with 64.
    change 0xC0 with (N.shiftl 6 5). rewrite lor_high; [reflexivity|].
    change (2 ^ 5) with 32. lia. }
  destruct (is_surrogate c) eqn:E3; [discriminate|].
  destruct (c <? 65536) eqn:E4; bool_facts.
  { intros H. apply Some_inj in H. subst b. right. right. left.
    split; [lia|]. split; [reflexivity|].
    rewrite !Hc, !N.shiftr_div_pow2. change (2 ^ 6) with 64.
    change (2 ^ 12) with 4096.
    change 0xE0 with (N.shiftl 14 4). rewrite lor_high; [reflexivity|].
    change (2 ^ 4) with 16. lia. }
  destruct (c <=? 1114111) eqn:E5; bool_facts; [|discriminate].
  intros H. apply Some_inj in H. subst b. right. right. right. split; [lia|].
  rewrite !Hc, !N.shiftr_div_pow2. change (2 ^ 6) with 64.
  change (2 ^ 12) with 4096. change (2 ^ 18) with 262144.
  change 0xF0 with (N.shiftl 30 3). rewrite lor_high; [reflexivity|].
  change (2 ^ 3) with 8. lia.
Qed.

Ltac settle_N :=
  repeat match goal with
         | |- context [?a <? ?b] =>
             first [ replace (a <? b) with true by (symmetry; apply N.ltb_lt; lia)
                   | replace (a <? b) with false by (symmetry; apply N.ltb_ge; lia) ]
         | |- context [?a <=? ?b] =>
             first [ replace (a <=? b) with true by (symmetry; apply N.leb_le; lia)
                   | replace (a <=? b) with false by (symmetry; apply N.leb_gt; lia) ]
         end.

Lemma cont_bits_mod (b : N) : cont_bits b = b mod 64.
Proof. unfold cont_bits. change 0x3F with (N.ones 6). apply land_mask. Qed.

Lemma join_bits (hi lo n : N) : lo < 2 ^ n -> N.lor (N.shiftl hi n) lo = hi * 2 ^ n + lo.
Proof. apply lor_high. Qed.

(** One step of the decoder on the octets of one code point. *)
Lemma utf8_decode_char (pass : bool) (fuel : nat) (c : N) (b r : pybytes) :
  utf8_encode_char c = Some b ->
  utf8_decode_aux pass (S fuel) (b ++ r)
  = option_map (cons c) (utf8_decode_aux pass fuel r).
Proof.
  intros H. apply utf8_encode_char_arith in H.
  destruct H as [[Hc ->] | [[Hc ->] | [(Hc & Hs & ->) | [Hc ->]]]];
    cbn [app utf8_decode_aux]; unfold is_cont; rewrite ?cont_bits_mod;
    settle_N; cbn [andb].
  - reflexivity.
  - change 0x1F with (N.ones 5). rewrite land_mask.
    rewrite join_bits by (apply N.mod_lt; discriminate).
    change (2 ^ 5) with 32. change (2 ^ 6) with 64.
    replace ((192 + c / 64) mod 32 * 64 + (128 + c mod 64) mod 64) with c by lia.
    reflexivity.
  - change 0x0F with (N.ones 4). rewrite land_mask.
    rewrite (join_bits ((128 + (c / 64) mod 64) mod 64))
      by (apply N.mod_lt; discriminate).
    change (2 ^ 4) with 16. change (2 ^ 6) with 64.
    rewrite join_bits by (change (2 ^ 12) with 4096; lia).
    change (2 ^ 12) with 4096.
    replace ((224 + c / 4096) mod 16 * 4096
             + ((128 + (c / 64) mod 64) mod 64 * 64 + (128 + c mod 64) mod 64))
      with c by lia.
    rewrite Hs. settle_N. cbn [andb negb orb]. rewrite orb_true_r. reflexivity.
  - change 0x07 with (N.ones 3). rewrite land_mask.
    rewrite (join_bits ((128 + (c / 64) mod 64) mod 64))
      by (apply N.mod_lt; discriminate).
    change (2 ^ 3) with 8. change (2 ^ 6) with 64.
    rewrite (join_bits ((128 + (c / 4096) mod 64) mod 64))
      by (change (2 ^ 12) with 4096; lia).
    change (2 ^ 12) with 4096.
    rewrite join_bits by (change (2 ^ 18) with 262144; lia).
    change (2 ^ 18) with 262144.
    replace ((240 + c / 262144) mod 8 * 262144
             + ((128 + (c / 4096) mod 64) mod 64 * 4096
                + ((128 + (c / 64) mod 64) mod 64 * 64 + (128 + c mod 64) mod 64)))
      with c by lia.
    settle_N. reflexivity.
Qed.

Lemma utf8_encode_length (s : pystr) (b : pybytes) :
  utf8_encode s = Some b -> (length s <= length b)%nat.
Proof.
  revert b. induction s as [|c s IH]; intros b H.
  - cbn in H. apply Some_inj in H. subst b. cbn. lia.
  - cbn [utf8_encode] in H.
    destruct (utf8_encode_char c) as [bc|] eqn:Ec; [|discriminate].
    destruct (utf8_encode s) as [bs|] eqn:Es; [|discriminate].
    apply Some_inj in H. subst b. specialize (IH bs eq_refl).
    rewrite length_app. cbn [length].
    apply utf8_encode_char_arith in Ec.
    destruct Ec as [[_ ->] | [[_ ->] | [(_ & _ & ->) | [_ ->]]]]; cbn [length]; lia.
Qed.

Lemma utf8_decode_aux_encode (pass : bool) (s : pystr) :
  forall (b : pybytes) (fuel : nat),
    utf8_encode s = Some b -> (length s <= fuel)%nat ->
    utf8_decode_aux pass fuel b = Some s.
Proof.
  induction s as [|c s IH]; intros b fuel H Hf.
  - cbn in H. apply Some_inj in H. subst b. destruct fuel; reflexivity.
  - cbn [utf8_encode] in H.
    destruct (utf8_encode_char c) as [bc|] eqn:Ec; [|discriminate].
    destruct (utf8_encode s) as [bs|] eqn:Es; [|discriminate].
    apply Some_inj in H. subst b.
    destruct fuel as [|fuel]; [cbn [length] in Hf; lia|].
    rewrite (utf8_decode_char pass fuel c bc bs Ec).
    rewrite (IH bs fuel eq_refl) by (cbn [length] in Hf; lia).
    reflexivity.
Qed.

(** X14.  Text that [bytes(s, 'utf-8')] encodes is given back by
    [decode('utf-8')], by the strict handler and by 'surrogatepass'
    alike: encoding loses nothing. *)
Theorem utf8_round_trip (s : pystr) (b : pybytes) :
  utf8_encode s = Some b ->
  utf8_decode b = Some s /\ utf8_decode_surrogatepass b = Some s.
Proof.
  intros H. pose proof (utf8_encode_length s b H).
  split; now apply utf8_decode_aux_encode.
Qed.

(* ===================================================================== *)
(** * The bearer token determines the text it was built from *)
(* ===================================================================== *)

Lemma b64_char_inj (i j : N) :
  i < 64 -> j < 64 -> b64_char i = b64_char j -> i = j.
Proof.
  unfold b64_char. intros Hi Hj.
  destruct (i <? 26) eqn:I1; destruct (i <? 52) eqn:I2; destruct (i <? 62) eqn:I3;
    destruct (i =? 62) eqn:I4;
    destruct (j <? 26) eqn:J1; destruct (j <? 52) eqn:J2; destruct (j <? 62) eqn:J3;
    destruct (j =? 62) eqn:J4; bool_facts; lia.
Qed.

Lemma b64_char_not_pad (i : N) : b64_char i <> b64_pad.
Proof.
  unfold b64_char, b64_pad.
  destruct (i <? 26) eqn:I1; destruct (i <? 52) eqn:I2; destruct (i <? 62) eqn:I3;
    destruct (i =? 62) eqn:I4; bool_facts; lia.
Qed.

Lemma b64_first (x : N) : N.shiftr x 2 = x / 4.
Proof. now rewrite N.shiftr_div_pow2. Qed.

Lemma b64_second (x y : N) :
  y < 256 ->
  N.lor (N.shiftl (N.land x 3) 4) (N.shiftr y 4) = x mod 4 * 16 + y / 16.
Proof.
  intros H. change 3 with (N.ones 2). rewrite land_mask, N.shiftr_div_pow2.
  rewrite join_bits; [reflexivity|]. change (2 ^ 4) with 16. lia.
Qed.

Lemma b64_second_last (x : N) : N.shiftl (N.land x 3) 4 = x mod 4 * 16.
Proof.
  change 3 with (N.ones 2). now rewrite land_mask, N.shiftl_mul_pow2.
Qed.

Lemma b64_third (y z : N) :
  z < 256 ->
  N.lor (N.shiftl (N.land y 15) 2) (N.shiftr z 6) = y mod 16 * 4 + z / 64.
Proof.
  intros H. rewrite land_15, N.shiftr_div_pow2.
  rewrite join_bits; [reflexivity|]. change (2 ^ 2) with 4. change (2 ^ 6) with 64. lia.
Qed.

Lemma b64_third_last (y : N) : N.shiftl (N.land y 15) 2 = y mod 16 * 4.
Proof. now rewrite land_15, N.shiftl_mul_pow2. Qed.

Lemma b64_fourth (z : N) : N.land z 63 = z mod 64.
Proof. change 63 with (N.ones 6). apply land_mask. Qed.

Ltac octet_facts :=
  repeat match goal with
         | H : octets (_ :: _) = true |- _ =>
             cbn [octets forallb] in H; apply andb_true_iff in H;
             destruct H as [? H]; fold (octets) in H
         | H : octets [] = true |- _ => clear H
         end;
  bool_facts.

Lemma cons_eq_inv {A} (a b : A) (l m : list A) :
  a :: l = b :: m -> a = b /\ l = m.
Proof. intros H. injection H as -> ->. now split. Qed.

Ltac peel H :=
  repeat match type of H with
         | _ :: _ = _ :: _ =>
             let E := fresh "E" in
             apply cons_eq_inv in H; destruct H as [E H]
         end.

Ltac pad_clash :=
  match goal with
  | H : b64_char _ = b64_pad |- _ => now apply b64_char_not_pad in H
  | H : b64_pad = b64_char _ |- _ =>
      symmetry in H; now apply b64_char_not_pad in H
  end.

Ltac same_chars :=
  repeat match goal with
         | H : b64_char _ = b64_char _ |- _ => apply b64_char_inj in H; [|lia|lia]
         end.

Lemma div_mod_eq (a b d : N) :
  d <> 0 -> a / d = b / d -> a mod d = b mod d -> a = b.
Proof.
  intros Hd H1 H2. rewrite (N.div_mod a d Hd), (N.div_mod b d Hd). congruence.
Qed.

Lemma split_16 (h1 l1 h2 l2 : N) :
  l1 < 16 -> l2 < 16 -> h1 * 16 + l1 = h2 * 16 + l2 -> h1 = h2 /\ l1 = l2.
Proof. lia. Qed.

Lemma split_4 (h1 l1 h2 l2 : N) :
  l1 < 4 -> l2 < 4 -> h1 * 4 + l1 = h2 * 4 + l2 -> h1 = h2 /\ l1 = l2.
Proof. lia. Qed.

Lemma div_small (x d m : N) : d <> 0 -> x < d * m -> x / d < m.
Proof. intros Hd H. now apply N.Div0.div_lt_upper_bound. Qed.

(** The three octets of a group are read off its four characters. *)
Lemma b64_group (x1 y1 z1 x2 y2 z2 : N) :
  y1 < 256 -> z1 < 256 -> y2 < 256 -> z2 < 256 ->
  x1 / 4 = x2 / 4 ->
  x1 mod 4 * 16 + y1 / 16 = x2 mod 4 * 16 + y2 / 16 ->
  y1 mod 16 * 4 + z1 / 64 = y2 mod 16 * 4 + z2 / 64 ->
  z1 mod 64 = z2 mod 64 ->
  x1 = x2 /\ y1 = y2 /\ z1 = z2.
Proof.
  intros Hy1 Hz1 Hy2 Hz2 E1 E2 E3 E4.
  apply split_16 in E2 as [Ex Ey];
    [|apply div_small; [discriminate|exact Hy1]
     |apply div_small; [discriminate|exact Hy2]].
  apply split_4 in E3 as [Ey' Ez];
    [|apply div_small; [discriminate|exact Hz1]
     |apply div_small; [discriminate|exact Hz2]].
  repeat split.
  - now apply (div_mod_eq x1 x2 4).
  - now apply (div_mod_eq y1 y2 16).
  - now apply (div_mod_eq z1 z2 64).
Qed.

(** Base64 text is written from one sequence of octets only. *)
Lemma b64encode_inj_aux (n : nat) :
  forall b1 b2 : pybytes,
    (length b1 <= n)%nat ->
    octets b1 = true -> octets b2 = true ->
    b64encode b1 = b64encode b2 -> b1 = b2.
Proof.
  induction n as [|n IH]; intros b1 b2 Hn H1 H2 He.
  - destruct b1; [|cbn [length] in Hn; lia].
    destruct b2 as [|x [|y [|z r]]]; [reflexivity|discriminate..].
  - destruct b1 as [|x1 [|y1 [|z1 r1]]]; destruct b2 as [|x2 [|y2 [|z2 r2]]];
      cbn [b64encode] in He; try discriminate; try reflexivity;
      octet_facts;
      rewrite ?b64_first, ?b64_second, ?b64_second_last, ?b64_third,
        ?b64_third_last, ?b64_fourth in He by assumption;
      peel He; try pad_clash; same_chars.
    + destruct (b64_group x1 0 0 x2 0 0) as (-> & _);
        try reflexivity; try assumption; lia.
    + destruct (b64_group x1 y1 0 x2 y2 0) as (-> & -> & _);
        try reflexivity; try assumption; lia.
    + destruct (b64_group x1 y1 z1 x2 y2 z2) as (-> & -> & ->); try assumption.
      f_equal. f_equal. f_equal.
      apply IH; try assumption. cbn [length] in Hn. lia.
Qed.

Lemma b64encode_inj (b1 b2 : pybytes) :
  octets b1 = true -> octets b2 = true ->
  b64encode b1 = b64encode b2 -> b1 = b2.
Proof. apply (b64encode_inj_aux (length b1)). lia. Qed.

Lemma utf8_encode_octets (s : pystr) (b : pybytes) :
  utf8_encode s = Some b -> octets b = true.
Proof.
  revert b. induction s as [|c s IH]; intros b H.
  - cbn in H. apply Some_inj in H. now subst b.
  - cbn [utf8_encode] in H.
    destruct (utf8_encode_char c) as [bc|] eqn:Ec; [|discriminate].
    destruct (utf8_encode s) as [bs|] eqn:Es; [|discriminate].
    apply Some_inj in H. subst b. unfold octets. rewrite forallb_app.
    fold (octets bc). fold (octets bs). rewrite (IH bs eq_refl), andb_true_r.
    apply utf8_encode_char_arith in Ec.
    destruct Ec as [[Hc ->] | [[Hc ->] | [(Hc & _ & ->) | [Hc ->]]]];
      cbn [octets forallb]; settle_N; reflexivity.
Qed.

(** X15.  The [Authorization] header determines the text
    [api_key:secret_key:bucket] it was built from: two texts that have a
    UTF-8 encoding give the same headers only if they are the same
    text. *)
Theorem bearer_headers_determine_text (text1 text2 : pystr) (tb1 tb2 : pybytes) :
  utf8_encode text1 = Some tb1 ->
  utf8_encode text2 = Some tb2 ->
  bearer_headers tb1 = bearer_headers tb2 ->
  text1 = text2.
Proof.
  intros H1 H2 Hh.
  assert (Hb : b64encode tb1 = b64encode tb2).
  { unfold bearer_headers in Hh.
    assert (Ht : lit "Bearer " ++ b64encode tb1 = lit "Bearer " ++ b64encode tb2)
      by congruence.
    now apply app_inv_head in Ht. }
  apply b64encode_inj in Hb;
    [|now apply utf8_encode_octets with text1|now apply utf8_encode_octets with text2].
  subst tb2.
  pose proof (utf8_decode_aux_encode false text1 tb1 (length tb1) H1
                (utf8_encode_length _ _ H1)) as D1.
  pose proof (utf8_decode_aux_encode false text2 tb1 (length tb1) H2
                (utf8_encode_length _ _ H2)) as D2.
  congruence.
Qed.

(* ===================================================================== *)
(** * Which data [upload_metadata] accepts *)
(* ===================================================================== *)








(* ===================================================================== *)
(** * Tuples are read back as lists *)
(* ===================================================================== *)


(* ===================================================================== *)
(** * The test script *)
(* ===================================================================== *)

Section Script.

Variable py : Interpreter.
Variable lower : pystr -> pystr.
Variable world : World.

Lemma run_script_raises (ops : list Op) :
  forall st st' e,
    run_script py lower world ops st = (Raise e, st') ->
    exists op st1 st2,
      In op ops /\ self st1 = self st
      /\ run_op py lower world op st1 = (Raise e, st2).
Proof.
  induction ops as [|op ops IH]; intros st st' e H; cbn [run_script] in H.
  - discriminate.
  - unfold bind in H at 1.
    destruct (run_op py lower world op st) as [[v|e0] st1] eqn:Eo.
    + unfold bind in H.
      destruct (run_script py lower world ops st1) as [[vs|e1] st2] eqn:Es;
        [discriminate|].
      injection H as <- <-.
      destruct (IH _ _ _ Es) as (op' & sa & sb & Hin & Hs & Hr).
      exists op', sa, sb. split; [now right|]. split; [|exact Hr].
      rewrite Hs. pose proof (run_op_keeps_self py lower world op st) as Hk.
      now rewrite Eo in Hk.
    + injection H as <- <-. exists op, st, st1. split; [now left|]. now split.
Qed.

Lemma run_script_log (ops : list Op) :
  forall st c,
    In c (log (snd (run_script py lower world ops st))) ->
    In c (log st)
    \/ exists op st1,
        In op ops /\ self st1 = self st /\ In c (op_calls py lower world op st1).
Proof.
  induction ops as [|op ops IH]; intros st c H; cbn [run_script] in H.
  - now left.
  - pose proof (run_op_calls py lower world op st) as Hl.
    pose proof (run_op_keeps_self py lower world op st) as Hk.
    unfold bind in H at 1.
    destruct (run_op py lower world op st) as [[v|e0] st1] eqn:Eo; cbn [snd] in *.
    + assert (H' : In c (log (snd (run_script py lower world ops st1)))).
      { unfold bind in H.
        destruct (run_script py lower world ops st1) as [[vs|e1] st2]; exact H. }
      apply IH in H'. destruct H' as [H'|(op' & sa & Hin & Hs & Hc)].
      * rewrite Hl in H'. apply in_app_or in H'. destruct H' as [H'|H'];
          [now left|]. right. exists op, st. split; [now left|]. now split.
      * right. exists op', sa. split; [now right|]. split; [congruence|exact Hc].
    + rewrite Hl in H. apply in_app_or in H. destruct H as [H|H]; [now left|].
      right. exists op, st. split; [now left|]. now split.
Qed.

(** X10.  A script stops on an exception deriving from [Exception] in
    one case only: one of its calls is [list_pinned_objects] on a bucket
    for which the text [api_key:secret_key:bucket] has no UTF-8 encoding,
    and the exception is the [UnicodeEncodeError] of that text. *)
Theorem script_exception (ops : list Op) (st st' : State) (e : Exc) :
  run_script py lower world ops st = (Raise e, st') ->
  is_Exception e = true ->
  exists bucket,
    In (List_pinned_objects bucket) ops
    /\ utf8_encode (token_text (filebase_api_key (self st))
                               (filebase_secret_api_key (self st)) bucket) = None
    /\ exc_class e = UnicodeEncodeError.
Proof.
  intros H He.
  apply run_script_raises in H as (op & s1 & s2 & Hin & Hs & Hr).
  destruct (run_op_raises py lower world op s1 s2 e Hr He)
    as (bucket & -> & Hu & Hc & _).
  exists bucket. rewrite <- Hs. now repeat split.
Qed.




End Script.

(* ===================================================================== *)
(** * Which statuses of the REST service are OK *)
(* ===================================================================== *)

Lemma status_ok_codes (c : Z) :
  (status_ok c = false <-> (400 <= c < 600)%Z)
  /\ (status_ok c = true <-> (c < 400 \/ 600 <= c)%Z).
Proof.
  unfold status_ok.
  destruct (Z.leb_spec 400 c) as [H1|H1], (Z.ltb_spec c 600) as [H2|H2];
    cbn [andb negb];
    split; split; intros H; try reflexivity; try discriminate; lia.
Qed.

(** X18.  [list_pinned_objects] by the status code of the answer: a code
    from 400 up to 599 gives the error record, any other code the parsed
    JSON body (redirects and informational codes included). *)
Theorem list_pinned_objects_by_code
    (world : World) (bucket : pystr) (st : State) (tb : pybytes)
    (status_code : Z) (reason text : pystr) (json : result PyVal) :
  utf8_encode (token_text (filebase_api_key (self st))
                          (filebase_secret_api_key (self st)) bucket) = Some tb ->
  world (log st) (Requests_get pins_url (bearer_headers tb))
  = Return (VResponse status_code reason text json) ->
  ((400 <= status_code < 600)%Z ->
   fst (list_pinned_objects world bucket st)
   = Return (VDict [(VStr (lit "status"), VInt status_code);
                    (VStr (lit "reason"), VStr reason);
                    (VStr (lit "text"), VStr text)]))
  /\
  (forall body,
      (status_code < 400 \/ 600 <= status_code)%Z -> json = Return body ->
      fst (list_pinned_objects world bucket st) = Return body).
Proof.
  intros Htb Hw. unfold list_pinned_objects, bind.
  rewrite (pins_headers_ok _ _ _ Htb).
  unfold list_pinned_objects_try. unfold_M. rewrite Hw. cbn [attr_ok].
  split.
  - intros Hc. apply (proj1 (status_ok_codes status_code)) in Hc.
    rewrite Hc. reflexivity.
  - intros body Hc ->. apply (proj2 (status_ok_codes status_code)) in Hc.
    rewrite Hc. reflexivity.
Qed.

(* ===================================================================== *)
(** * Dicts as the client uses them *)
(* ===================================================================== *)

(** X17.  Setting a string key of a dict, as [list_pinned_objects] does
    with ['Content-Type'] on its headers: the key then holds the new
    value, every other string key holds what it held, and the dict grows
    by at most one item. *)
Theorem dict_set_get (d : items) (k : pystr) (v : PyVal) :
  dict_get (dict_set d k v) k = Some v
  /\ (forall k', k' <> k -> dict_get (dict_set d k v) k' = dict_get d k')
  /\ (length d <= length (dict_set d k v) <= S (length d))%nat.
Proof.
  induction d as [|[k0 v0] d (IH1 & IH2 & IH3)].
  - cbn [dict_set dict_get length]. rewrite str_eqb_refl. repeat split; try lia.
    intros k' Hk. rewrite str_eqb_neq; [reflexivity|congruence].
  - destruct k0; cbn [dict_set dict_get length];
      try (repeat split; [exact IH1|exact IH2|lia|lia]).
    destruct (str_eqb s k) eqn:E.
    + apply str_eqb_eq in E. subst s. cbn [dict_get length].
      rewrite str_eqb_refl. repeat split; try lia.
      intros k' Hk. rewrite str_eqb_neq; [reflexivity|congruence].
    + cbn [dict_get length]. rewrite E. repeat split; try lia; [exact IH1|].
      intros k' Hk. destruct (str_eqb s k'); [reflexivity|now apply IH2].
Qed.

(* ===================================================================== *)
(** * Further runs on sample inputs *)
(* ===================================================================== *)

Lemma create_bucket_result_witness :
  fst (create_bucket ascii_lower (constant_world (Return (s3_response 200 [])))
         (lit "MyNewBucket") sample_client)
  = Return (s3_response 200 [])
  /\ fst (create_bucket ascii_lower (constant_world (Return (s3_response 409 [])))
            (lit "MyNewBucket") sample_client)
     = Return (error_record (VInt 409) (VInt 409) (s3_response 409 [])).
Proof.
  split.
  - apply (proj1 (create_bucket_result ascii_lower
                    (constant_world (Return (s3_response 200 [])))
                    (lit "MyNewBucket") sample_client (s3_response 200 []) (VInt 200)
                    eq_refl eq_refl)).
    reflexivity.
  - apply (proj2 (create_bucket_result ascii_lower
                    (constant_world (Return (s3_response 409 [])))
                    (lit "MyNewBucket") sample_client (s3_response 409 []) (VInt 409)
                    eq_refl eq_refl));
      discriminate.
Defined.

Lemma delete_object_result_witness :
  fst (delete_object ascii_lower (constant_world (Return (s3_response 200 [])))
         (lit "myfilename") (lit "bucketname") sample_client)
  = Return (s3_response 200 [])
  /\ fst (delete_object ascii_lower (constant_world (Return (s3_response 204 [])))
            (lit "myfilename") (lit "bucketname") sample_client)
     = Return (error_record (VInt 204) (VInt 204) (s3_response 204 [])).
Proof.
  split.
  - apply (proj1 (delete_object_result ascii_lower
                    (constant_world (Return (s3_response 200 [])))
                    (lit "myfilename") (lit "bucketname") sample_client
                    (s3_response 200 []) (VInt 200) eq_refl eq_refl)).
    reflexivity.
  - apply (proj2 (delete_object_result ascii_lower
                    (constant_world (Return (s3_response 204 [])))
                    (lit "myfilename") (lit "bucketname") sample_client
                    (s3_response 204 []) (VInt 204) eq_refl eq_refl));
      discriminate.
Defined.

Lemma list_buckets_result_witness :
  fst (list_buckets (constant_world (Return (buckets_response 200 [VStr (lit "b")])))
         sample_client)
  = Return (VList [VStr (lit "b")])
  /\ fst (list_buckets (constant_world (Return (s3_response 200 []))) sample_client)
     = Return (VExc (mkExc KeyError (lit "Buckets")))
  /\ fst (list_buckets (constant_world (Return (buckets_response 403 []))) sample_client)
     = Return (error_record (VInt 403) (VInt 403) (buckets_response 403 [])).
Proof.
  split; [|split].
  - apply (proj1 (list_buckets_result
                    (constant_world (Return (buckets_response 200 [VStr (lit "b")])))
                    sample_client (buckets_response 200 [VStr (lit "b")]) (VInt 200)
                    eq_refl eq_refl));
      reflexivity.
  - eapply (proj1 (proj2 (list_buckets_result
                            (constant_world (Return (s3_response 200 [])))
                            sample_client (s3_response 200 []) (VInt 200)
                            eq_refl eq_refl)));
      reflexivity.
  - apply (proj2 (proj2 (list_buckets_result
                           (constant_world (Return (buckets_response 403 [])))
                           sample_client (buckets_response 403 []) (VInt 403)
                           eq_refl eq_refl)));
      discriminate.
Defined.

Lemma upload_metadata_result_witness :
  utf8_encode sample_metadata_text = Some sample_metadata_text
  /\ log (snd (upload_metadata sample_py ascii_lower
                 (store_world (s3_response 200 [(VStr (lit "x-amz-meta-cid"),
                                                 VStr (lit "QmCid"))]))
                 sample_metadata (lit "mymetadata") (lit "BucketName") sample_client))
     = [S3_put_object (s3 (self sample_client)) (VBytes sample_metadata_text)
                      (lit "bucketname") (lit "mymetadata")]
  /\ fst (upload_metadata sample_py ascii_lower
            (store_world (s3_response 200 [(VStr (lit "x-amz-meta-cid"),
                                            VStr (lit "QmCid"))]))
            sample_metadata (lit "mymetadata") (lit "BucketName") sample_client)
     = Return (VStr (lit "QmCid")).
Proof.
  destruct (upload_metadata_result sample_py ascii_lower
              (store_world (s3_response 200 [(VStr (lit "x-amz-meta-cid"),
                                              VStr (lit "QmCid"))]))
              sample_metadata (lit "mymetadata") (lit "BucketName") sample_client
              sample_metadata_text eq_refl) as (Hu & Hl & Hr).
  split; [exact Hu|]. split; [exact Hl|].
  apply (proj1 (Hr [(VStr (lit "ResponseMetadata"),
                     VDict [(VStr (lit "HTTPStatusCode"), VInt 200);
                            (VStr (lit "HTTPHeaders"),
                             VDict [(VStr (lit "x-amz-meta-cid"),
                                     VStr (lit "QmCid"))])])]
                   [(VStr (lit "HTTPStatusCode"), VInt 200);
                    (VStr (lit "HTTPHeaders"),
                     VDict [(VStr (lit "x-amz-meta-cid"), VStr (lit "QmCid"))])]
                   (VInt 200) eq_refl eq_refl eq_refl)
               [(VStr (lit "x-amz-meta-cid"), VStr (lit "QmCid"))]
               (VStr (lit "QmCid")));
    reflexivity.
Defined.

Lemma upload_object_failures_witness :
  upload_object ascii_lower missing_file_world
    (lit "/dir/to/file/test.png") (lit "testpng") (lit "bucketname") sample_client
  = (Return (VExc (mkExc FileNotFoundError (lit "/dir/to/file/test.png"))),
     {| self := self sample_client; log := [Open_rb (lit "/dir/to/file/test.png")] |})
  /\ fst (upload_object ascii_lower
            (failing_store_world (mkExc EndpointConnectionError (lit "unreachable")))
            (lit "/dir/to/file/test.png") (lit "testpng") (lit "bucketname")
            sample_client)
     = Return (VExc (mkExc EndpointConnectionError (lit "unreachable"))).
Proof.
  split.
  - apply (proj1 (upload_object_failures ascii_lower missing_file_world
                    (lit "/dir/to/file/test.png") (lit "testpng") (lit "bucketname")
                    sample_client
                    (mkExc FileNotFoundError (lit "/dir/to/file/test.png")) eq_refl)).
    reflexivity.
  - rewrite (proj2 (upload_object_failures ascii_lower
                      (failing_store_world
                         (mkExc EndpointConnectionError (lit "unreachable")))
                      (lit "/dir/to/file/test.png") (lit "testpng") (lit "bucketname")
                      sample_client
                      (mkExc EndpointConnectionError (lit "unreachable")) eq_refl)
                   (VFile (lit "/dir/to/file/test.png")) eq_refl eq_refl).
    reflexivity.
Defined.

Lemma unreadable_status_is_returned_witness :
  fst (create_bucket ascii_lower (constant_world (Return VNone))
         (lit "mynewbucket") sample_client)
  = Return (VExc (mkExc TypeError (lit "not subscriptable by str")))
  /\ fst (list_buckets (constant_world (Return (VDict []))) sample_client)
     = Return (VExc (mkExc KeyError (lit "ResponseMetadata"))).
Proof.
  split.
  - apply (proj1 (unreadable_status_is_returned sample_py ascii_lower
                    (constant_world (Return VNone)) sample_client VNone
                    (mkExc TypeError (lit "not subscriptable by str")) eq_refl)).
    reflexivity.
  - apply (proj1 (proj2 (unreadable_status_is_returned sample_py ascii_lower
                           (constant_world (Return (VDict []))) sample_client (VDict [])
                           (mkExc KeyError (lit "ResponseMetadata")) eq_refl))).
    reflexivity.
Defined.

Lemma handle_error_raises_witness :
  handle_error (VDict []) = Raise (mkExc KeyError (lit "ResponseMetadata"))
  /\ handle_error (VDict [(VStr (lit "ResponseMetadata"), VDict [])])
     = Raise (mkExc KeyError (lit "HTTPStatusCode"))
  /\ handle_error VNone = Raise (no_attribute "status_code").
Proof.
  split; [|split].
  - apply (proj1 (handle_error_raises (VDict [])) [] eq_refl eq_refl).
  - apply (proj1 (proj2 (handle_error_raises
                           (VDict [(VStr (lit "ResponseMetadata"), VDict [])])))
                 [(VStr (lit "ResponseMetadata"), VDict [])] [] eq_refl eq_refl eq_refl).
  - apply (proj2 (proj2 (handle_error_raises VNone))); [reflexivity|discriminate].
Defined.

Lemma script_exception_witness :
  exists bucket,
    In (List_pinned_objects bucket) surrogate_script
    /\ utf8_encode (token_text (lit "key") (lit "secret") bucket) = None
    /\ exc_class (mkExc UnicodeEncodeError (lit "surrogates not allowed"))
       = UnicodeEncodeError.
Proof.
  apply (script_exception sample_py ascii_lower silent_world surrogate_script sample_client
           {| self := self sample_client;
              log := [S3_create_bucket (s3 (self sample_client)) (lit "mynewbucket")] |}
           (mkExc UnicodeEncodeError (lit "surrogates not allowed")));
    reflexivity.
Defined.

Lemma bucket_names_fold_case_witness :
  create_bucket ascii_lower silent_world (lit "MyBucket") sample_client
  = create_bucket ascii_lower silent_world (lit "mybucket") sample_client.
Proof.
  apply (proj1 (bucket_names_fold_case sample_py ascii_lower silent_world
                  (lit "MyBucket") (lit "mybucket") sample_client eq_refl)).
Defined.


Lemma utf8_round_trip_witness :
  utf8_decode [0xE2; 0x82; 0xAC; 0x41; 0xF0; 0x9F; 0x98; 0x80]
  = Some [0x20AC; 0x41; 0x1F600]
  /\ utf8_decode_surrogatepass [0xE2; 0x82; 0xAC; 0x41; 0xF0; 0x9F; 0x98; 0x80]
     = Some [0x20AC; 0x41; 0x1F600].
Proof.
  apply (utf8_round_trip [0x20AC; 0x41; 0x1F600]). reflexivity.
Defined.

Lemma bearer_headers_determine_text_witness :
  token_text (lit "key") (lit "secret") (lit "bucket") = lit "key:secret:bucket".
Proof.
  apply (bearer_headers_determine_text
           (token_text (lit "key") (lit "secret") (lit "bucket"))
           (lit "key:secret:bucket")
           (lit "key:secret:bucket") (lit "key:secret:bucket"));
    reflexivity.
Defined.


Lemma list_pinned_objects_by_code_witness :
  fst (list_pinned_objects
         (rest_world (VResponse 404 (lit "Not Found") (lit "no such bucket")
                                (Return VNone)))
         (lit "bucketname") sample_client)
  = Return (VDict [(VStr (lit "status"), VInt 404);
                   (VStr (lit "reason"), VStr (lit "Not Found"));
                   (VStr (lit "text"), VStr (lit "no such bucket"))])
  /\ fst (list_pinned_objects
            (rest_world (VResponse 302 (lit "Found") (lit "[]") (Return (VList []))))
            (lit "bucketname") sample_client)
     = Return (VList []).
Proof.
  split.
  - apply (proj1 (list_pinned_objects_by_code
                    (rest_world (VResponse 404 (lit "Not Found") (lit "no such bucket")
                                           (Return VNone)))
                    (lit "bucketname") sample_client
                    (lit "key:secret:bucketname")
                    404%Z (lit "Not Found") (lit "no such bucket") (Return VNone)
                    eq_refl eq_refl)).
    lia.
  - apply (proj2 (list_pinned_objects_by_code
                    (rest_world (VResponse 302 (lit "Found") (lit "[]")
                                           (Return (VList []))))
                    (lit "bucketname") sample_client
                    (lit "key:secret:bucketname")
                    302%Z (lit "Found") (lit "[]") (Return (VList []))
                    eq_refl eq_refl) (VList [])); [lia|reflexivity].
Defined.

Lemma dict_set_get_witness :
  dict_get (dict_set [(VStr (lit "Authorization"), VStr (lit "Bearer a2V5"))]
                     (lit "Content-Type") (VStr (lit "application/json")))
           (lit "Authorization")
  = Some (VStr (lit "Bearer a2V5")).
Proof.
  rewrite (proj1 (proj2 (dict_set_get
                           [(VStr (lit "Authorization"), VStr (lit "Bearer a2V5"))]
                           (lit "Content-Type") (VStr (lit "application/json"))))
                 (lit "Authorization")).
  - reflexivity.
  - discriminate.
Defined.
